(** * Inventory unit conversion: the conversion engine of [InventoryUnitConverter.js]

    A shallow embedding of the methods [convertUnit], [standardizeItem],
    [processInventoryData] and [convertUnits] of the class
    [InventoryUnitConverter], and the properties the specification states
    about them.

    Modelling decisions, all taken from the source:
    - a JavaScript number is an IEEE-754 binary64 value: Rocq's primitive
      [float], whose [+ - * /] round to nearest-even exactly as JavaScript's;
    - a field that may be missing is an [option]; [None] is [undefined];
    - an object used as a dictionary ([conversionRules], [products], the
      [conversions] object) is a [gmap] over its own properties; a read
      [obj[key]] that finds no own property falls back to the members
      inherited from [Object.prototype], and a write to the key [__proto__]
      creates no property;
    - an element of an [items] array is an object, [null] or [undefined];
    - [throw] and [try]/[catch] are an exception monad [Exn];
    - [this.log] only writes to the console, the log file and the event
      emitter, and returns nothing: it is left out;
    - [new Date().toISOString()] is an input: the functions take the clock
      reading as an argument. *)

From Stdlib Require Import Ascii ZArith Floats.
From stdpp Require Import gmap strings list.

Set Warnings "-inexact-float,-register-all,-clear-no-such-hyp".
Open Scope Z_scope.

(** ** JavaScript values and exceptions *)

Module Js.

(** The two kinds of exception the modelled code can raise:
    [new Error(message)], and the [TypeError] of a property read on [null]. *)
Inductive JsError :=
| Error (message : string)
| TypeError (message : string).

Definition message (e : JsError) : string :=
  match e with Error m => m | TypeError m => m end.

(** A computation either returns a value or throws. *)
Inductive Exn (A : Type) :=
| Return (a : A)
| Throw (e : JsError).
Arguments Return {A} a.
Arguments Throw {A} e.

#[export] Instance Exn_ret : MRet Exn := @Return.
#[export] Instance Exn_bind : MBind Exn := fun A B k m =>
  match m with Return a => k a | Throw e => Throw e end.

(** [try { body } catch (error) { handler }] *)
Definition try_catch {A} (body : Exn A) (handler : JsError -> Exn A) : Exn A :=
  match body with Return a => Return a | Throw e => handler e end.

(** [for (const x of l) { body }], the loop body updating the state [s]. *)
Fixpoint for_of {A S} (l : list A) (body : A -> S -> Exn S) (s : S) : Exn S :=
  match l with
  | [] => Return s
  | x :: l' => s' ← body x s; for_of l' body s'
  end.

(** [l.map(f)] for a callback that may throw; the callback also receives
    the index, as in JavaScript. *)
Fixpoint Array_map {A B} (f : A -> nat -> Exn B) (i : nat) (l : list A)
  : Exn (list B) :=
  match l with
  | [] => Return []
  | x :: l' => y ← f x i; ys ← Array_map f (S i) l'; Return (y :: ys)
  end.

(** ToBoolean on a string-or-undefined and on a number-or-undefined. *)
Definition truthy_string (v : option string) : bool :=
  match v with
  | Some s => negb (String.eqb s "")
  | None => false
  end.

Definition truthy_number (v : option float) : bool :=
  match v with
  | Some x => negb (is_zero x || is_nan x)
  | None => false
  end.

(** ToNumber and ToString (in a template literal) of a possibly
    [undefined] value. *)
Definition toNumber (v : option float) : float :=
  match v with Some x => x | None => nan end.

Definition toString (v : option string) : string :=
  match v with Some s => s | None => "undefined" end.

(** The integral float of sign [neg] and value [n]; a zero keeps the sign. *)
Definition float_of_Z (neg : bool) (n : Z) : float :=
  match n with
  | Z0 => if neg then neg_zero else zero
  | Zpos p => SF2Prim (S754_finite false p 0)
  | Zneg p => SF2Prim (S754_finite true p 0)
  end.

(** The numerator of the exact value [±m · 2^e] of a finite float. *)
Definition signed (s : bool) (m : positive) : Z :=
  if s then Z.neg m else Z.pos m.

(** [Math.round(x)]: [x] itself when it is not finite or is integral,
    otherwise the integer closest to [x], the one closer to +∞ on a tie,
    that is floor(x + 1/2) computed exactly; the sign of [x] is kept on a
    zero result. *)
Definition Math_round (x : float) : float :=
  match Prim2SF x with
  | S754_finite s m e =>
      if e <? 0 then
        let d := 2 ^ (- e) in
        float_of_Z s ((signed s m * 2 + d) / (2 * d))
      else x
  | _ => x
  end.

(** [l.indexOf(x)]: the first index holding [x], [-1] when there is none.
    The array holds strings, so an [undefined] is never found. *)
Fixpoint indexOf_from (l : list string) (x : option string) (i : Z) : Z :=
  match l with
  | [] => -1
  | y :: l' => if decide (x = Some y) then i else indexOf_from l' x (i + 1)
  end.

Definition indexOf (l : list string) (x : option string) : Z :=
  indexOf_from l x 0.

(** The names of the members every object inherits from
    [Object.prototype]. *)
Definition objectPrototypeMembers : list string :=
  ["constructor"; "__defineGetter__"; "__defineSetter__"; "hasOwnProperty";
   "__lookupGetter__"; "__lookupSetter__"; "isPrototypeOf";
   "propertyIsEnumerable"; "toString"; "valueOf"; "__proto__";
   "toLocaleString"].

(** What [obj[key]] reads on an object parsed from JSON whose own
    properties hold numbers: the own property, else the inherited member of
    that name (a function, or the prototype object for [__proto__]), else
    [undefined]. *)
Inductive Property :=
| PropUndefined
| PropNumber (x : float)
| PropInherited.

Definition getProperty (obj : gmap string float) (key : string) : Property :=
  match obj !! key with
  | Some x => PropNumber x
  | None =>
      if bool_decide (key ∈ objectPrototypeMembers) then PropInherited
      else PropUndefined
  end.

(** ToBoolean and ToNumber of what was read: a function and the prototype
    object are truthy and convert to NaN. *)
Definition truthy_property (p : Property) : bool :=
  match p with
  | PropNumber x => truthy_number (Some x)
  | PropInherited => true
  | PropUndefined => false
  end.

Definition toNumber_property (p : Property) : float :=
  match p with
  | PropNumber x => x
  | PropInherited | PropUndefined => nan
  end.

(** [obj[key] = v] for a value [v] that is not an object: the key
    [__proto__] reaches the setter inherited from [Object.prototype], which
    ignores such a value, so no property is created. *)
Definition setProperty {V} (obj : gmap string V) (key : string) (v : V)
  : gmap string V :=
  if decide (key = "__proto__") then obj else <[key := v]> obj.

(** [Number.isFinite]. *)
Definition isFinite (x : float) : bool :=
  match Prim2SF x with
  | S754_zero _ | S754_finite _ _ _ => true
  | S754_infinity _ | S754_nan => false
  end.

End Js.
Import Js.

(** ** The data model *)

(** A JSON value, for the fields the engine passes through untouched. *)
Inductive Json :=
| JNull
| JBool (b : bool)
| JNumber (x : float)
| JString (s : string)
| JArray (xs : list Json)
| JObject (fields : list (string * Json)).

(** One entry of [conversionRules]: [{ default, products }]. *)
Record ConversionRule := {
  rule_default : float;
  products : gmap string float
}.

(** The conversion master document. *)
Record ConversionTable := {
  version : string;
  supportedUnits : list string;
  unitHierarchy : list string;
  conversionRules : gmap string ConversionRule
}.

(** The converter object: [this.conversionRules] is [null] until
    [loadConversionMaster] has stored the master document in it. *)
Record Converter := {
  this_conversionRules : option ConversionTable
}.

(** The loaded converter: [this.conversionRules] holds [table]. *)
Definition loaded (table : ConversionTable) : Converter :=
  {| this_conversionRules := Some table |}.

(** An inventory item [{ sku, quantity, unit, ...rest }]. *)
Record InventoryItem := {
  item_sku : option string;
  item_quantity : option float;
  item_unit : option string;
  item_rest : list (string * Json)
}.

(** An element of an [items] array: an object with the fields of an
    inventory item, [null] or [undefined]. *)
Inductive Element :=
| ElemNull
| ElemUndefined
| ElemObject (item : InventoryItem).
Coercion ElemObject : InventoryItem >-> Element.

(** The object [standardizeItem] returns on success; the listed fields
    shadow passthrough fields of the same name. *)
Record StandardizedItem := {
  std_rest : list (string * Json);
  std_sku : option string;
  originalQuantity : option float;
  originalUnit : option string;
  standardizedUnits : gmap string (option float);
  convertedAt : string
}.

(** What [standardizeItem] returns: the standardized item, or
    [{ ...item, error }]. *)
Inductive ItemResult :=
| Standardized (r : StandardizedItem)
| ErrorRecord (item : InventoryItem) (error : string).

(** The [items] field of an incoming payload, over the kind of element
    its array holds. *)
Inductive ItemsField (A : Type) :=
| ItemsMissing
| ItemsNotArray (v : Json)
| ItemsArray (l : list A).
Arguments ItemsMissing {A}.
Arguments ItemsNotArray {A} v.
Arguments ItemsArray {A} l.

Record InventoryData := {
  data_items : ItemsField Element;
  data_rest : list (string * Json)
}.

(** The object [processInventoryData] returns:
    [{ ...data, items, processedAt, conversionVersion }]. *)
Record BatchResult := {
  batch_rest : list (string * Json);
  batch_items : list ItemResult;
  processedAt : string;
  conversionVersion : string
}.

(** One element of the array [convertUnits] returns:
    [{ ...item, convertedQuantity, convertedUnit, conversionFactor }]. *)
Record ConvertedItem := {
  conv_item : InventoryItem;
  convertedQuantity : option float;
  convertedUnit : option string;
  conversionFactor : float
}.

(** ** The engine *)

(** Reading property [prop] of [this.conversionRules]: a [TypeError] while
    no master document is loaded. *)
Definition read_master (this : Converter) (prop : string) : Exn ConversionTable :=
  match this_conversionRules this with
  | Some table => Return table
  | None =>
      Throw (TypeError
               ("Cannot read properties of null (reading '" +:+ prop +:+ "')"))
  end.

(** [`${fromUnit}_TO_${toUnit}`] *)
Definition conversionKey (fromUnit toUnit : option string) : string :=
  toString fromUnit +:+ "_TO_" +:+ toString toUnit.

(** [(sku && rules.products[sku]) ? rules.products[sku] : rules.default] *)
Definition conversionFactorOf (rules : ConversionRule) (sku : option string) : float :=
  match sku with
  | Some s =>
      if truthy_string sku && truthy_property (getProperty (products rules) s)
      then toNumber_property (getProperty (products rules) s)
      else rule_default rules
  | None => rule_default rules
  end.

(** The value of [result] before rounding. *)
Definition rawResult (hierarchy : list string) (quantity : option float)
    (fromUnit toUnit : option string) (conversionFactor : float) : float :=
  let fromIndex := indexOf hierarchy fromUnit in
  let toIndex := indexOf hierarchy toUnit in
  if fromIndex <? toIndex
  then (toNumber quantity / conversionFactor)%float
  else (toNumber quantity * conversionFactor)%float.

(** [Math.round(result * 100) / 100] *)
Definition round2 (result : float) : float :=
  (Math_round (result * 100) / 100)%float.

(** [convertUnit(quantity, fromUnit, toUnit, sku = null)] *)
Definition convertUnit (this : Converter) (quantity : option float)
    (fromUnit toUnit : option string) (sku : option string)
  : Exn (option float) :=
  if decide (fromUnit = toUnit) then Return quantity
  else
    table ← read_master this "conversionRules";
    match conversionRules table !! conversionKey fromUnit toUnit with
    | None =>
        Throw (Error ("No conversion rule found for " +:+ toString fromUnit
                      +:+ " to " +:+ toString toUnit))
    | Some rules =>
        let conversionFactor := conversionFactorOf rules sku in
        let result :=
          rawResult (unitHierarchy table) quantity fromUnit toUnit conversionFactor in
        Return (Some (round2 result))
    end.

(** The body of the loop of [standardizeItem]. *)
Definition standardizeStep (this : Converter) (quantity : option float)
    (unit sku : option string) (targetUnit : string)
    (conversions : gmap string (option float))
  : Exn (gmap string (option float)) :=
  if decide (unit = Some targetUnit)
  then Return (setProperty conversions targetUnit quantity)
  else
    converted ← convertUnit this quantity unit (Some targetUnit) sku;
    Return (setProperty conversions targetUnit converted).

(** [standardizeItem(item)] once [item] has been destructured: the
    validation, and the [try] block with its [catch]. *)
Definition standardizeFields (this : Converter) (now : string) (item : InventoryItem)
  : Exn ItemResult :=
  let sku := item_sku item in
  let quantity := item_quantity item in
  let unit := item_unit item in
  if negb (truthy_string sku) || negb (truthy_number quantity)
     || negb (truthy_string unit)
  then Return (ErrorRecord item "Missing required fields: sku, quantity, unit")
  else
    try_catch
      (table ← read_master this "supportedUnits";
       conversions ← for_of (supportedUnits table)
                       (standardizeStep this quantity unit sku) ∅;
       Return (Standardized {|
         std_rest := item_rest item;
         std_sku := sku;
         originalQuantity := quantity;
         originalUnit := unit;
         standardizedUnits := conversions;
         convertedAt := now |}))
      (fun error => Return (ErrorRecord item (message error))).

(** [standardizeItem(item)]; [now] is the clock reading. The first
    statement, [const { sku, quantity, unit, ...rest } = item], stands before
    the validation and outside the [try]: it throws on [null] and on
    [undefined]. *)
Definition standardizeItem (this : Converter) (now : string) (item : Element)
  : Exn ItemResult :=
  match item with
  | ElemObject fields => standardizeFields this now fields
  | ElemNull =>
      Throw (TypeError "Cannot destructure property 'sku' of 'item' as it is null.")
  | ElemUndefined =>
      Throw (TypeError
               "Cannot destructure property 'sku' of 'item' as it is undefined.")
  end.

(** [processInventoryData(data)]; [data] is [None] for a falsy payload, and
    [clock i] is the clock reading while item [i] is standardized,
    [clock (length items)] the one stamped on the batch. *)
Definition processInventoryData (this : Converter) (clock : nat -> string)
    (data : option InventoryData) : Exn BatchResult :=
  match data with
  | Some d =>
      match data_items d with
      | ItemsArray l =>
          processedItems ←
            Array_map (fun item i => standardizeItem this (clock i) item) 0%nat l;
          table ← read_master this "version";
          Return {|
            batch_rest := data_rest d;
            batch_items := processedItems;
            processedAt := clock (length l);
            conversionVersion := version table |}
      | _ => Throw (Error "Invalid inventory data format. Expected { items: [] }")
      end
  | None => Throw (Error "Invalid inventory data format. Expected { items: [] }")
  end.

(** [convertUnits(items, targetUnit)] *)
Definition convertUnits (this : Converter) (items : list InventoryItem)
    (targetUnit : option string) : Exn (list ConvertedItem) :=
  Array_map
    (fun item (_ : nat) =>
       converted ← convertUnit this (item_quantity item) (item_unit item)
                     targetUnit (item_sku item);
       Return {|
         conv_item := item;
         convertedQuantity := converted;
         convertedUnit := targetUnit;
         conversionFactor := (toNumber converted / toNumber (item_quantity item))%float |})
    0%nat items.

(** ** The table of the specification's concrete scenario *)

Definition scenarioTable : ConversionTable := {|
  version := "1.0.0";
  supportedUnits := ["PIECE"; "BOX"; "CARTON"];
  unitHierarchy := ["PIECE"; "BOX"; "CARTON"];
  conversionRules :=
    <["PIECE_TO_BOX" := {| rule_default := 12; products := {["SKU001" := 10%float]} |}]>
    (<["BOX_TO_CARTON" := {| rule_default := 8; products := ∅ |}]>
    (<["PIECE_TO_CARTON" := {| rule_default := 96; products := {["SKU001" := 80%float]} |}]>
     ∅))
|}.

Definition scenario : Converter := loaded scenarioTable.

Definition scenarioItem : InventoryItem := {|
  item_sku := Some "SKU001";
  item_quantity := Some 120%float;
  item_unit := Some "PIECE";
  item_rest := []
|}.

(** ** Vocabulary of the statements *)

(** [n] is the rank of unit [u] in the hierarchy [l]: the first position
    holding it. *)
Definition rank (l : list string) (u : string) (n : nat) : Prop :=
  l !! n = Some u /\ forall j, (j < n)%nat -> l !! j <> Some u.

(** *** Rounding, in the specification's words *)

(** Following the specification's words, "round-half-away-from-zero": the
    integer closest to [x], the one farther from zero on a tie, that is
    floor(|x| + 1/2) with the sign of [x]. *)
Definition round_half_away_from_zero (x : float) : float :=
  match Prim2SF x with
  | S754_finite s m e =>
      if e <? 0 then
        let d := 2 ^ (- e) in
        let n := (Z.pos m * 2 + d) / (2 * d) in
        float_of_Z s (if s then - n else n)
      else x
  | _ => x
  end.

(** Following the specification's words: that rounding applied to
    [result × 100], then divided by 100. *)
Definition spec_round2 (result : float) : float :=
  (round_half_away_from_zero (result * 100) / 100)%float.

(** Whether an element of an [items] array is an object. *)
Definition isObject (item : Element) : bool :=
  match item with
  | ElemObject _ => true
  | ElemNull | ElemUndefined => false
  end.

(** *** Reading results *)

(** Whether a per-item result is an error record or a standardized item. *)
Definition is_ErrorRecord (r : ItemResult) : bool :=
  match r with ErrorRecord _ _ => true | Standardized _ => false end.

Definition is_Standardized (r : ItemResult) : bool :=
  match r with Standardized _ => true | ErrorRecord _ _ => false end.

(** Telling two results apart by comparing the number returned with [y]. *)
Definition returns_number (y : float) (r : Exn (option float)) : bool :=
  match r with
  | Return (Some x) => (x =? y)%float
  | _ => false
  end.

(** *** Further inputs of the examples *)

(** A master document whose override for SKU001 is 0. *)
Definition zeroOverrideTable : ConversionTable := {|
  version := "1.0.0";
  supportedUnits := ["PIECE"; "BOX"];
  unitHierarchy := ["PIECE"; "BOX"];
  conversionRules :=
    {["PIECE_TO_BOX" := {| rule_default := 12; products := {["SKU001" := 0%float]} |}]}
|}.

(** A master document with a rule from the larger unit to the smaller. *)
Definition piecesPerBoxTable : ConversionTable := {|
  version := "1.0.0";
  supportedUnits := ["PIECE"; "BOX"];
  unitHierarchy := ["PIECE"; "BOX"];
  conversionRules :=
    {["BOX_TO_PIECE" := {| rule_default := 12; products := ∅ |}]}
|}.

(** The item of the specification's abort scenario. *)
Definition bogusItem : InventoryItem := {|
  item_sku := Some "X";
  item_quantity := Some 1%float;
  item_unit := Some "BOGUS";
  item_rest := []
|}.

(** An item without a sku. *)
Definition noSkuItem : InventoryItem := {|
  item_sku := None;
  item_quantity := Some 5%float;
  item_unit := Some "BOX";
  item_rest := [("name", JString "Widget B")]
|}.

(** A converter before [loadConversionMaster] has run. *)
Definition unloaded : Converter := {| this_conversionRules := None |}.

(** A master document with rules for a unit that the hierarchy does not list. *)
Definition palletTable : ConversionTable := {|
  version := "1.0.0";
  supportedUnits := ["PIECE"; "BOX"; "CARTON"];
  unitHierarchy := ["PIECE"; "BOX"; "CARTON"];
  conversionRules :=
    <["PALLET_TO_BOX" := {| rule_default := 40; products := ∅ |}]>
    (<["BOX_TO_PALLET" := {| rule_default := 40; products := ∅ |}]> ∅)
|}.

(** A master document whose default factor is 0. *)
Definition zeroDefaultTable : ConversionTable := {|
  version := "1.0.0";
  supportedUnits := ["PIECE"; "BOX"];
  unitHierarchy := ["PIECE"; "BOX"];
  conversionRules :=
    {["PIECE_TO_BOX" := {| rule_default := 0; products := ∅ |}]}
|}.

(** An item whose quantity is 0. *)
Definition zeroQuantityItem : InventoryItem := {|
  item_sku := Some "SKU001";
  item_quantity := Some 0%float;
  item_unit := Some "PIECE";
  item_rest := []
|}.

(** An item without a quantity. *)
Definition noQuantityItem : InventoryItem := {|
  item_sku := Some "SKU001";
  item_quantity := None;
  item_unit := Some "PIECE";
  item_rest := []
|}.

(** The scenario's master document with its supported units in another
    order, one of them twice. *)
Definition shuffledTable : ConversionTable := {|
  version := version scenarioTable;
  supportedUnits := ["CARTON"; "PIECE"; "BOX"; "PIECE"];
  unitHierarchy := unitHierarchy scenarioTable;
  conversionRules := conversionRules scenarioTable
|}.

(** A second item of a unit without rules. *)
Definition crateItem : InventoryItem := {|
  item_sku := Some "Y";
  item_quantity := Some 2%float;
  item_unit := Some "CRATE";
  item_rest := []
|}.

(** ** The HTTP handlers of [setupWebhookServer] *)

(** What a handler sends: [res.json({ success: true, result })], with the
    default status 200, or
    [res.status(500).json({ success: false, error })]. *)
Inductive ResponseBody (A : Type) :=
| SuccessBody (result : A)
| ErrorBody (error : string).
Arguments SuccessBody {A} result.
Arguments ErrorBody {A} error.

Record Response (A : Type) := {
  status : Z;
  body : ResponseBody A
}.
Arguments status {A} r.
Arguments body {A} r.

(** The [try]/[catch] both handlers share: the result is sent with status
    200, the message of what was thrown with status 500. *)
Definition respond {A} (handled : Exn A) : Response A :=
  match handled with
  | Return result => {| status := 200; body := SuccessBody result |}
  | Throw error => {| status := 500; body := ErrorBody (message error) |}
  end.

(** [POST /webhook/inventory]: [this.processInventoryData(req.body)]. *)
Definition webhookInventory (this : Converter) (clock : nat -> string)
    (req_body : option InventoryData) : Response BatchResult :=
  respond (processInventoryData this clock req_body).

(** The body of a [POST /convert] request: [{ items, targetUnit }]. *)
Record ConvertRequest := {
  req_items : ItemsField InventoryItem;
  req_targetUnit : option string
}.

(** [items.map(...)] of [convertUnits] on what the request holds as
    [items]: a [TypeError] unless it is an array. *)
Definition convertUnits_of (this : Converter) (items : ItemsField InventoryItem)
    (targetUnit : option string) : Exn (list ConvertedItem) :=
  match items with
  | ItemsArray l => convertUnits this l targetUnit
  | ItemsMissing =>
      Throw (TypeError "Cannot read properties of undefined (reading 'map')")
  | ItemsNotArray JNull =>
      Throw (TypeError "Cannot read properties of null (reading 'map')")
  | ItemsNotArray _ => Throw (TypeError "items.map is not a function")
  end.

(** [POST /convert]: [const { items, targetUnit } = req.body] and
    [this.convertUnits(items, targetUnit)], both inside the [try]. *)
Definition convertEndpoint (this : Converter) (req_body : option ConvertRequest)
  : Response (list ConvertedItem) :=
  respond
    match req_body with
    | Some request =>
        convertUnits_of this (req_items request) (req_targetUnit request)
    | None =>
        Throw (TypeError
          "Cannot destructure property 'items' of 'req.body' as it is undefined.")
    end.

(** ** CSV input: [parseCSV]

    A string is a sequence of characters with codes below 256. *)

(** The characters [trim] removes: TAB, LF, VT, FF, CR, space and the
    no-break space. *)
Definition isWhiteSpace (c : ascii) : bool :=
  let n := nat_of_ascii c in
  ((9 <=? n) && (n <=? 13) || (n =? 32) || (n =? 160))%nat.

Fixpoint trimStart (s : string) : string :=
  match s with
  | String c s' => if isWhiteSpace c then trimStart s' else s
  | EmptyString => EmptyString
  end.

Fixpoint trimEnd (s : string) : string :=
  match s with
  | String c s' =>
      match trimEnd s' with
      | EmptyString => if isWhiteSpace c then EmptyString else String c EmptyString
      | t => String c t
      end
  | EmptyString => EmptyString
  end.

(** [s.trim()] *)
Definition trim (s : string) : string := trimEnd (trimStart s).

(** [s.split(sep)] for a separator of one character, as its first element
    and the others: the array is never empty. *)
Fixpoint split_first (sep : ascii) (s : string) : string * list string :=
  match s with
  | String c s' =>
      let (first, rest) := split_first sep s' in
      if Ascii.eqb c sep then (EmptyString, first :: rest)
      else (String c first, rest)
  | EmptyString => (EmptyString, [])
  end.

Definition split (sep : ascii) (s : string) : list string :=
  let (first, rest) := split_first sep s in first :: rest.

(** [\d] *)
Definition isDigit (c : ascii) : bool :=
  let n := nat_of_ascii c in ((48 <=? n) && (n <=? 57))%nat.

(** The longest prefix of digits, and what follows it. *)
Fixpoint spanDigits (s : string) : string * string :=
  match s with
  | String c s' =>
      if isDigit c then let (digits, rest) := spanDigits s' in (String c digits, rest)
      else (EmptyString, s)
  | EmptyString => (EmptyString, EmptyString)
  end.

(** The match of [/^\d+(\.\d+)?$/]: the digits before the point and the
    digits after it, empty when there is no point. *)
Definition decimalParts (value : string) : option (string * string) :=
  match spanDigits value with
  | (EmptyString, _) => None
  | (int, EmptyString) => Some (int, EmptyString)
  | (int, String c rest) =>
      if Ascii.eqb c "."%char then
        match spanDigits rest with
        | (EmptyString, _) => None
        | (frac, EmptyString) => Some (int, frac)
        | (_, String _ _) => None
        end
      else None
  end.

(** The integer a string of digits writes. *)
Fixpoint digitsValue (digits : string) (acc : Z) : Z :=
  match digits with
  | String c s' => digitsValue s' (acc * 10 + (Z.of_nat (nat_of_ascii c) - 48))
  | EmptyString => acc
  end.

(** The double nearest to [n / d], ties to even. *)
Definition nearestDouble (n : Z) (d : positive) : float :=
  match n with
  | Zpos p =>
      let '(m, e, l) := SFdiv_core_binary prec emax (Zpos p) 0 (Zpos d) 0 in
      SF2Prim (binary_round_aux prec emax false m e l)
  | _ => PrimFloat.zero
  end.

(** [parseFloat(value)] on a value that the test admits: the double nearest
    to the decimal [int.frac]. *)
Definition decimalNumber (int frac : string) : float :=
  nearestDouble (digitsValue (int +:+ frac) 0)
    (Z.to_pos (10 ^ Z.of_nat (String.length frac))).

(** A field of a parsed row: a number, a string, or [undefined]. *)
Inductive CsvValue :=
| CsvUndefined
| CsvNumber (x : float)
| CsvString (s : string).

(** [/^\d+(\.\d+)?$/.test(value) ? parseFloat(value) : value]; the test
    turns an [undefined] value into the string "undefined", which fails it. *)
Definition fieldValue (value : option string) : CsvValue :=
  match value with
  | Some v =>
      match decimalParts v with
      | Some (int, frac) => CsvNumber (decimalNumber int frac)
      | None => CsvString v
      end
  | None => CsvUndefined
  end.

(** [headers.forEach((header, index) => { item[header] = ... values[index] ... })] *)
Fixpoint assignFields (headers values : list string) (index : nat)
    (item : gmap string CsvValue) : gmap string CsvValue :=
  match headers with
  | header :: headers' =>
      assignFields headers' values (S index)
        (setProperty item header (fieldValue (values !! index)))
  | [] => item
  end.

(** The callback of [lines.slice(1).map]. *)
Definition parseLine (headers : list string) (line : string)
  : gmap string CsvValue :=
  let values := trim <$> split ","%char line in
  assignFields headers values 0%nat ∅.

(** [parseCSV(csvContent)]: the [items] of the object it returns. *)
Definition parseCSV (csvContent : string) : list (gmap string CsvValue) :=
  let (first, rest) := split_first "010"%char (trim csvContent) in
  let headers := trim <$> split ","%char first in
  parseLine headers <$> rest.

(** The number of occurrences of a character. *)
Fixpoint occurrences (c : ascii) (s : string) : nat :=
  match s with
  | String c' s' => (if Ascii.eqb c' c then 1 else 0) + occurrences c s'
  | EmptyString => 0
  end.

(** ** Lemmas on the JavaScript layer *)

Lemma indexOf_from_rank (l : list string) (u : string) (n : nat) (k : Z) :
  rank l u n -> indexOf_from l (Some u) k = k + Z.of_nat n.
Proof.
  revert n k. induction l as [|y l IH]; intros n k [Hn Hfirst].
  - rewrite lookup_nil in Hn. discriminate.
  - simpl. destruct n as [|n].
    + simpl in Hn. injection Hn as ->.
      rewrite decide_True by reflexivity. lia.
    + rewrite decide_False.
      * rewrite (IH n (k + 1)); [lia|]. split; [exact Hn|].
        intros j Hj. apply (Hfirst (S j)). lia.
      * intros [= ->]. apply (Hfirst 0%nat); [lia | reflexivity].
Qed.

Lemma indexOf_rank (l : list string) (u : string) (n : nat) :
  rank l u n -> indexOf l (Some u) = Z.of_nat n.
Proof. intros H. unfold indexOf. rewrite (indexOf_from_rank l u n 0 H). lia. Qed.

(** Every unit of the hierarchy has a rank. *)
Lemma rank_exists (l : list string) (u : string) :
  u ∈ l -> exists n, rank l u n.
Proof.
  induction l as [|y l IH]; intros Hin.
  - inversion Hin.
  - destruct (decide (y = u)) as [->|Hne].
    + exists 0%nat. split; [reflexivity|]. intros j Hj. lia.
    + apply elem_of_cons in Hin as [->|Hin]; [congruence|].
      destruct (IH Hin) as [n [Hn Hfirst]]. exists (S n). split; [exact Hn|].
      intros [|j] Hj; simpl.
      * congruence.
      * apply Hfirst. lia.
Qed.

Lemma rank_unique (l : list string) (u : string) (n n' : nat) :
  rank l u n -> rank l u n' -> n = n'.
Proof.
  intros [Hn Hfirst] [Hn' Hfirst'].
  destruct (Nat.lt_trichotomy n n') as [Hlt|[Heq|Hgt]]; [|exact Heq|].
  - destruct (Hfirst' n Hlt Hn).
  - destruct (Hfirst n' Hgt Hn').
Qed.

(** [Math.round] on ties, near one half, and on values that it returns as
    they are. *)
Example Math_round_examples :
  Math_round 2.5 = 3%float /\ Math_round (-2.5) = (-2)%float /\
  Math_round 0.49999999999999994 = 0%float /\
  Math_round (-0.5) = neg_zero /\
  Math_round 833.3333333333334 = 833%float /\
  Math_round 4503599627370497 = 4503599627370497%float /\
  Math_round infinity = infinity /\ Math_round nan = nan.
Proof. vm_compute. repeat split. Qed.

(** The short-circuit on equal units. *)
Lemma convertUnit_same_unit (this : Converter) (quantity : option float)
    (unit sku : option string) :
  convertUnit this quantity unit unit sku = Return quantity.
Proof. unfold convertUnit. rewrite decide_True by reflexivity. reflexivity. Qed.

(** The lookup of an existing rule. *)
Lemma convertUnit_rule (t : ConversionTable) (quantity : option float)
    (fromUnit toUnit sku : option string) (rules : ConversionRule) :
  fromUnit <> toUnit ->
  conversionRules t !! conversionKey fromUnit toUnit = Some rules ->
  convertUnit (loaded t) quantity fromUnit toUnit sku =
  Return (Some (round2 (rawResult (unitHierarchy t) quantity fromUnit toUnit
                          (conversionFactorOf rules sku)))).
Proof.
  intros Hne Hrule. unfold convertUnit. rewrite decide_False by exact Hne.
  simpl. rewrite Hrule. reflexivity.
Qed.

(** ** The claims *)

(** The direction of a conversion between two ranked units. *)
Lemma convertUnit_ranked (t : ConversionTable) (quantity : option float)
    (fromUnit toUnit : string) (sku : option string) (rules : ConversionRule)
    (i j : nat) :
  fromUnit <> toUnit ->
  conversionRules t !! conversionKey (Some fromUnit) (Some toUnit) = Some rules ->
  rank (unitHierarchy t) fromUnit i ->
  rank (unitHierarchy t) toUnit j ->
  convertUnit (loaded t) quantity (Some fromUnit) (Some toUnit) sku =
  Return (Some (round2
    (if decide (i < j)%nat
     then (toNumber quantity / conversionFactorOf rules sku)%float
     else (toNumber quantity * conversionFactorOf rules sku)%float))).
Proof.
  intros Hne Hrule Hi Hj.
  assert (Hne' : Some fromUnit <> Some toUnit) by congruence.
  rewrite (convertUnit_rule t quantity _ _ sku rules Hne' Hrule).
  unfold rawResult. rewrite (indexOf_rank _ _ _ Hi), (indexOf_rank _ _ _ Hj).
  destruct (Z.ltb_spec (Z.of_nat i) (Z.of_nat j));
    destruct (decide (i < j)%nat); try lia; reflexivity.
Qed.

(** C1. In a conversion between two different units that both occur in
    [unitHierarchy] and have a rule, the two units have ranks [i] and [j] in
    the hierarchy, and the quantity is divided by the resolved factor when
    [i < j] and multiplied by it otherwise; rounding is applied to that
    value. *)
Theorem convertUnit_direction (t : ConversionTable) (quantity : option float)
    (fromUnit toUnit : string) (sku : option string) (rules : ConversionRule) :
  fromUnit <> toUnit ->
  conversionRules t !! conversionKey (Some fromUnit) (Some toUnit) = Some rules ->
  fromUnit ∈ unitHierarchy t ->
  toUnit ∈ unitHierarchy t ->
  exists i j : nat,
    rank (unitHierarchy t) fromUnit i /\
    rank (unitHierarchy t) toUnit j /\
    ((i < j)%nat ->
     convertUnit (loaded t) quantity (Some fromUnit) (Some toUnit) sku =
     Return (Some (round2 (toNumber quantity / conversionFactorOf rules sku)%float))) /\
    (~ (i < j)%nat ->
     convertUnit (loaded t) quantity (Some fromUnit) (Some toUnit) sku =
     Return (Some (round2 (toNumber quantity * conversionFactorOf rules sku)%float))).
Proof.
  intros Hne Hrule Hfrom Hto.
  destruct (rank_exists _ _ Hfrom) as [i Hi].
  destruct (rank_exists _ _ Hto) as [j Hj].
  exists i, j. split; [exact Hi|]. split; [exact Hj|].
  rewrite (convertUnit_ranked t quantity fromUnit toUnit sku rules i j Hne Hrule Hi Hj).
  split; intros Hlt.
  - rewrite decide_True by exact Hlt. reflexivity.
  - rewrite decide_False by exact Hlt. reflexivity.
Qed.

Lemma convertUnit_direction_witness :
  convertUnit scenario (Some 24%float) (Some "PIECE") (Some "BOX") None =
    Return (Some (round2 (24 / 12)%float)) /\
  convertUnit (loaded piecesPerBoxTable) (Some 3%float) (Some "BOX") (Some "PIECE")
    None = Return (Some (round2 (3 * 12)%float)).
Proof.
  assert (Hrank0 : rank ["PIECE"; "BOX"] "PIECE" 0).
  { split; [reflexivity | intros j Hj; lia]. }
  assert (Hrank1 : rank ["PIECE"; "BOX"] "BOX" 1).
  { split; [reflexivity | intros [|j] Hj; [discriminate | lia]]. }
  split.
  - destruct (convertUnit_direction scenarioTable (Some 24%float) "PIECE" "BOX" None
                {| rule_default := 12; products := {["SKU001" := 10%float]} |})
      as (i & j & Hi & Hj & Hdiv & _).
    + discriminate.
    + vm_compute. reflexivity.
    + simpl. set_solver.
    + simpl. set_solver.
    + apply Hdiv.
      destruct Hi as [Hi _], Hj as [Hj Hfirst].
      destruct i as [|[|[|i]]]; try discriminate Hi.
      destruct j as [|[|[|j]]]; try discriminate Hj. lia.
  - destruct (convertUnit_direction piecesPerBoxTable (Some 3%float) "BOX" "PIECE" None
                {| rule_default := 12; products := ∅ |})
      as (i & j & Hi & Hj & _ & Hmul).
    + discriminate.
    + vm_compute. reflexivity.
    + simpl. set_solver.
    + simpl. set_solver.
    + apply Hmul.
      rewrite (rank_unique _ _ _ _ Hi Hrank1), (rank_unique _ _ _ _ Hj Hrank0). lia.
Defined.

(** C3. Converting a quantity to its own unit returns it unchanged, whatever
    the quantity, the unit and the sku are and whatever the converter holds:
    no table is read, no rule is looked up and nothing is rounded. *)
Theorem convertUnit_identity (this : Converter) (quantity : option float)
    (unit sku : option string) :
  convertUnit this quantity unit unit sku = Return quantity.
Proof.
  unfold convertUnit.
  destruct (decide (unit = unit)) as [_|Hne]; [reflexivity | contradiction].
Qed.

(** C5. Between two different units whose key ["X_TO_Y"] is not in
    [conversionRules], [convertUnit] throws the error naming the two units,
    whatever the quantity and the sku. *)
Theorem convertUnit_no_rule (t : ConversionTable) (quantity : option float)
    (X Y : string) (sku : option string) :
  X <> Y ->
  conversionRules t !! (X +:+ "_TO_" +:+ Y) = None ->
  convertUnit (loaded t) quantity (Some X) (Some Y) sku =
  Throw (Error ("No conversion rule found for " +:+ X +:+ " to " +:+ Y)).
Proof.
  intros Hne Hrule. unfold convertUnit.
  rewrite decide_False by congruence. simpl.
  unfold conversionKey. simpl. rewrite Hrule. reflexivity.
Qed.

Lemma convertUnit_no_rule_witness :
  convertUnit scenario (Some 10%float) (Some "INVALID_UNIT") (Some "PIECE")
    (Some "SKU001") =
  Throw (Error "No conversion rule found for INVALID_UNIT to PIECE").
Proof.
  apply (convertUnit_no_rule scenarioTable (Some 10%float) "INVALID_UNIT" "PIECE").
  - discriminate.
  - vm_compute. reflexivity.
Defined.

(** *** Rounding *)

(** [Math.round] returns the integer [n] with n - 1/2 <= x < n + 1/2: the
    closest one, and the upper one on a tie. The exact value of [x] is
    [signed s m / 2 ^ (- e)]. *)
Lemma Math_round_half_up (x : float) (s : bool) (m : positive) (e : Z) :
  Prim2SF x = S754_finite s m e -> e < 0 ->
  exists n : Z,
    Math_round x = float_of_Z s n /\
    (2 * n - 1) * 2 ^ (- e) <= 2 * signed s m < (2 * n + 1) * 2 ^ (- e).
Proof.
  intros Hx He. unfold Math_round. rewrite Hx.
  destruct (Z.ltb_spec e 0) as [_|]; [|lia].
  set (d := 2 ^ (- e)). set (a := signed s m).
  assert (Hd : 0 < d) by (apply Z.pow_pos_nonneg; lia).
  exists ((a * 2 + d) / (2 * d)). split; [reflexivity|].
  pose proof (Z.div_mod (a * 2 + d) (2 * d) ltac:(lia)) as Hdm.
  pose proof (Z.mod_pos_bound (a * 2 + d) (2 * d) ltac:(lia)) as Hr.
  nia.
Qed.

(** On a value that is not negative the two roundings agree. *)
Lemma Math_round_not_negative (x : float) :
  (x <? 0)%float = false -> Math_round x = round_half_away_from_zero x.
Proof.
  intros Hx. unfold Math_round, round_half_away_from_zero.
  rewrite ltb_spec in Hx.
  destruct (Prim2SF x) as [| | |s m e]; try reflexivity.
  destruct s; [discriminate Hx | reflexivity].
Qed.

(** C2, as the code has it. The result of a conversion between different
    units is [Math.round(result × 100) / 100]: [Math.round] takes the closest
    integer and, on a tie, the one toward +∞, which is
    round-half-away-from-zero whenever [result × 100] is not negative.
    Converting 100 from PIECE to BOX with the default factor 12 gives 8.33. *)
Theorem convertUnit_rounding (t : ConversionTable) (quantity : option float)
    (fromUnit toUnit sku : option string) (rules : ConversionRule) :
  fromUnit <> toUnit ->
  conversionRules t !! conversionKey fromUnit toUnit = Some rules ->
  exists result : float,
    result = rawResult (unitHierarchy t) quantity fromUnit toUnit
               (conversionFactorOf rules sku) /\
    convertUnit (loaded t) quantity fromUnit toUnit sku =
      Return (Some (Math_round (result * 100) / 100)%float) /\
    (forall s m e, Prim2SF (result * 100) = S754_finite s m e -> e < 0 ->
       exists n : Z,
         Math_round (result * 100) = float_of_Z s n /\
         (2 * n - 1) * 2 ^ (- e) <= 2 * signed s m < (2 * n + 1) * 2 ^ (- e)) /\
    ((result * 100 <? 0)%float = false ->
       convertUnit (loaded t) quantity fromUnit toUnit sku =
         Return (Some (spec_round2 result))) /\
    convertUnit scenario (Some 100%float) (Some "PIECE") (Some "BOX") None =
      Return (Some 8.33%float).
Proof.
  intros Hne Hrule. eexists. split; [reflexivity|].
  rewrite (convertUnit_rule t quantity _ _ sku rules Hne Hrule).
  split; [reflexivity|]. split; [|split].
  - intros s m e Hx He. exact (Math_round_half_up _ s m e Hx He).
  - intros Hpos. unfold round2, spec_round2.
    rewrite (Math_round_not_negative _ Hpos). reflexivity.
  - vm_compute. reflexivity.
Qed.

Lemma convertUnit_rounding_witness :
  exists result : float,
    result = (100 / 12)%float /\
    convertUnit scenario (Some 100%float) (Some "PIECE") (Some "BOX") None =
      Return (Some (spec_round2 result)) /\
    spec_round2 result = 8.33%float.
Proof.
  assert (Hrule : conversionRules scenarioTable
                    !! conversionKey (Some "PIECE") (Some "BOX")
                  = Some {| rule_default := 12;
                            products := {["SKU001" := 10%float]} |}).
  { vm_compute. reflexivity. }
  assert (Hne : Some "PIECE" <> Some "BOX") by discriminate.
  destruct (convertUnit_rounding scenarioTable (Some 100%float) (Some "PIECE")
              (Some "BOX") None _ Hne Hrule)
    as (result & Hres & _ & _ & Haway & _).
  exists result. split; [rewrite Hres; vm_compute; reflexivity|].
  split.
  - apply Haway. rewrite Hres. vm_compute. reflexivity.
  - rewrite Hres. vm_compute. reflexivity.
Defined.

(** C2, as stated, fails on a negative tie: -1 BOX is -0.125 CARTON, and
    [Math.round(-12.5)] is -12 where round-half-away-from-zero is -13. *)
Lemma convertUnit_rounding_counterexample :
  rawResult (unitHierarchy scenarioTable) (Some (-1)%float) (Some "BOX")
    (Some "CARTON") 8 = (-0.125)%float /\
  spec_round2 (-0.125) = (-0.13)%float /\
  convertUnit scenario (Some (-1)%float) (Some "BOX") (Some "CARTON") None =
    Return (Some (-0.12)%float) /\
  convertUnit scenario (Some (-1)%float) (Some "BOX") (Some "CARTON") None <>
    Return (Some (spec_round2 (-0.125))).
Proof.
  split; [vm_compute; reflexivity|]. split; [vm_compute; reflexivity|].
  split; [vm_compute; reflexivity|].
  intros H. apply (f_equal (returns_number (-0.12))) in H.
  vm_compute in H. discriminate H.
Qed.

(** *** Product overrides *)

(** The factor is the override when the sku is a non-empty string whose
    entry in [products] is a number other than 0 and NaN. *)
Lemma conversionFactorOf_override (rules : ConversionRule) (s : string) (f : float) :
  s <> "" -> products rules !! s = Some f ->
  is_zero f = false -> is_nan f = false ->
  conversionFactorOf rules (Some s) = f.
Proof.
  intros Hs Hf Hz Hn. unfold conversionFactorOf, getProperty. rewrite Hf. simpl.
  rewrite Hz, Hn. simpl.
  destruct (String.eqb_spec s ""); [contradiction | reflexivity].
Qed.

(** The factor is [rules.default] when no sku is given, when the sku is
    empty, when [products] has no entry for it and [Object.prototype] no
    member of that name, and when the entry is 0 or NaN. *)
Lemma conversionFactorOf_default (rules : ConversionRule) (sku : option string) :
  sku = None \/ sku = Some "" \/
  (exists s, sku = Some s /\ products rules !! s = None /\
             s ∉ objectPrototypeMembers) \/
  (exists s f, sku = Some s /\ products rules !! s = Some f /\
               (is_zero f || is_nan f) = true) ->
  conversionFactorOf rules sku = rule_default rules.
Proof.
  intros [-> | [-> | [(s & -> & Hs & Hown) | (s & f & -> & Hs & Hf)]]];
    unfold conversionFactorOf, getProperty; try reflexivity.
  - rewrite Hs, bool_decide_eq_false_2 by exact Hown. simpl.
    rewrite andb_false_r. reflexivity.
  - rewrite Hs. simpl. rewrite Hf. simpl. rewrite andb_false_r. reflexivity.
Qed.

(** The factor is NaN when [products] has no entry for the sku and the sku
    is the name of a member of [Object.prototype]: the member is read, is
    truthy, and is no number. *)
Lemma conversionFactorOf_inherited (rules : ConversionRule) (s : string) :
  products rules !! s = None -> s ∈ objectPrototypeMembers ->
  conversionFactorOf rules (Some s) = nan.
Proof.
  intros Hs Hin. unfold conversionFactorOf, getProperty.
  rewrite Hs, bool_decide_eq_true_2 by exact Hin. simpl.
  destruct (String.eqb_spec s "") as [->|_]; [|reflexivity].
  exfalso. revert Hin. unfold objectPrototypeMembers.
  rewrite !elem_of_cons, elem_of_nil. intros Hin.
  repeat (destruct Hin as [Hin|Hin]; [discriminate Hin|]). exact Hin.
Qed.

(** C4. The code does not do what the claim says for a sku that [products]
    does not hold when the sku is the name of a member inherited from
    [Object.prototype]. With the rule
    [PIECE_TO_BOX = { default: 12, products: { SKU001: 10 } }], the sku
    "toString" is absent from [products], yet 120 PIECE are not the 10 BOX of
    the default factor, which an unknown sku such as "UNKNOWN_SKU" gives: the
    inherited function is taken as the factor and the result is NaN. *)
Theorem convertUnit_inherited_sku :
  conversionRules scenarioTable !! conversionKey (Some "PIECE") (Some "BOX") =
    Some {| rule_default := 12; products := {["SKU001" := 10%float]} |} /\
  ({["SKU001" := 10%float]} : gmap string float) !! "toString" = None /\
  convertUnit scenario (Some 120%float) (Some "PIECE") (Some "BOX")
    (Some "UNKNOWN_SKU") = Return (Some 10%float) /\
  convertUnit scenario (Some 120%float) (Some "PIECE") (Some "BOX")
    (Some "toString") = Return (Some nan) /\
  convertUnit scenario (Some 120%float) (Some "PIECE") (Some "BOX")
    (Some "toString") <>
  Return (Some (round2 (rawResult (unitHierarchy scenarioTable) (Some 120%float)
                          (Some "PIECE") (Some "BOX") 12))).
Proof.
  split; [vm_compute; reflexivity|]. split; [vm_compute; reflexivity|].
  split; [vm_compute; reflexivity|]. split; [vm_compute; reflexivity|].
  intros H. apply (f_equal (returns_number 10)) in H.
  vm_compute in H. discriminate H.
Qed.

(** *** The item standardizer *)

(** The loop body assigns to [conversions[targetUnit]] what [convertUnit]
    returns for the target unit, the item's own unit included. *)
Lemma standardizeStep_convertUnit (this : Converter) (quantity : option float)
    (unit sku : option string) (targetUnit : string)
    (conversions : gmap string (option float)) :
  standardizeStep this quantity unit sku targetUnit conversions =
  (converted ← convertUnit this quantity unit (Some targetUnit) sku;
   Return (setProperty conversions targetUnit converted)).
Proof.
  unfold standardizeStep. destruct (decide (unit = Some targetUnit)) as [->|Hne].
  - rewrite convertUnit_same_unit. reflexivity.
  - reflexivity.
Qed.

(** What an assignment leaves in the object. *)
Lemma setProperty_lookup {V} (obj : gmap string V) (key k : string) (v : V) :
  setProperty obj key v !! k =
  if decide (key = k /\ key <> "__proto__") then Some v else obj !! k.
Proof.
  unfold setProperty. destruct (decide (key = "__proto__")) as [->|Hne].
  - rewrite decide_False by (intros [_ H]; apply H; reflexivity). reflexivity.
  - destruct (decide (key = k)) as [->|Hk].
    + rewrite decide_True by (split; [reflexivity | exact Hne]).
      apply lookup_insert_eq.
    + rewrite decide_False by (intros [H _]; contradiction).
      apply lookup_insert_ne. exact Hk.
Qed.

Lemma setProperty_dom {V} (obj : gmap string V) (key : string) (v : V) :
  dom (setProperty obj key v) = ({[key]} ∖ {["__proto__"]}) ∪ dom obj.
Proof.
  unfold setProperty. destruct (decide (key = "__proto__")) as [->|Hne].
  - set_solver.
  - rewrite dom_insert_L. set_solver.
Qed.

(** The loop over the supported units when every conversion succeeds. *)
Lemma for_of_standardize_Return (this : Converter) (quantity : option float)
    (unit sku : option string) (l : list string)
    (acc : gmap string (option float)) :
  (forall u, u ∈ l ->
     exists v, convertUnit this quantity unit (Some u) sku = Return v) ->
  exists m : gmap string (option float),
    for_of l (standardizeStep this quantity unit sku) acc = Return m /\
    dom m = (list_to_set l ∖ {["__proto__"]}) ∪ dom acc /\
    (forall u v, u ∈ l -> u <> "__proto__" ->
       convertUnit this quantity unit (Some u) sku = Return v -> m !! u = Some v) /\
    (forall u, u ∉ l \/ u = "__proto__" -> m !! u = acc !! u).
Proof.
  revert acc. induction l as [|x l IH]; intros acc Hall.
  - exists acc. split; [reflexivity|]. split; [set_solver|].
    split; [intros u v Hu; inversion Hu | reflexivity].
  - destruct (Hall x ltac:(left)) as [vx Hx].
    destruct (IH (setProperty acc x vx)) as (m & Hm & Hdom & Hin & Hout).
    { intros u Hu. apply Hall. right. exact Hu. }
    exists m. simpl. rewrite standardizeStep_convertUnit, Hx. simpl.
    split; [exact Hm|]. split; [|split].
    + rewrite Hdom, setProperty_dom. set_solver.
    + intros u v Hu Hproto Hv. destruct (decide (u ∈ l)) as [Hl|Hl].
      * apply Hin; assumption.
      * apply elem_of_cons in Hu as [->|Hu]; [|contradiction].
        rewrite (Hout x (or_introl Hl)), setProperty_lookup.
        rewrite decide_True by (split; [reflexivity | exact Hproto]). congruence.
    + intros u Hu. destruct Hu as [Hu| ->].
      * apply not_elem_of_cons in Hu as [Hne Hu].
        rewrite (Hout u (or_introl Hu)), setProperty_lookup.
        rewrite decide_False by (intros [H _]; congruence). reflexivity.
      * rewrite (Hout "__proto__" (or_intror eq_refl)), setProperty_lookup.
        rewrite decide_False by (intros [-> H]; apply H; reflexivity). reflexivity.
Qed.

(** The loop stops at the first unit whose conversion throws. *)
Lemma for_of_standardize_Throw (this : Converter) (quantity : option float)
    (unit sku : option string) (l : list string)
    (acc : gmap string (option float)) :
  (exists u e, u ∈ l /\ convertUnit this quantity unit (Some u) sku = Throw e) ->
  exists u e, u ∈ l /\
    convertUnit this quantity unit (Some u) sku = Throw e /\
    for_of l (standardizeStep this quantity unit sku) acc = Throw e.
Proof.
  revert acc. induction l as [|x l IH]; intros acc (u & e & Hu & He).
  - inversion Hu.
  - simpl. rewrite standardizeStep_convertUnit.
    destruct (convertUnit this quantity unit (Some x) sku) as [vx|ex] eqn:Hx.
    + apply elem_of_cons in Hu as [->|Hu]; [congruence|].
      destruct (IH (setProperty acc x vx)) as (u' & e' & Hu' & He' & Hloop).
      { exists u, e. split; assumption. }
      exists u', e'. split; [right; exact Hu'|]. split; [exact He'|exact Hloop].
    + exists x, ex. split; [left|]. split; [exact Hx|reflexivity].
Qed.

(** [standardizeItem] on an item that passes the validation. *)
Lemma standardizeItem_valid (this : Converter) (now : string) (item : InventoryItem) :
  truthy_string (item_sku item) = true ->
  truthy_number (item_quantity item) = true ->
  truthy_string (item_unit item) = true ->
  standardizeItem this now item =
  try_catch
    (table ← read_master this "supportedUnits";
     conversions ← for_of (supportedUnits table)
                     (standardizeStep this (item_quantity item) (item_unit item)
                        (item_sku item)) ∅;
     Return (Standardized {|
       std_rest := item_rest item;
       std_sku := item_sku item;
       originalQuantity := item_quantity item;
       originalUnit := item_unit item;
       standardizedUnits := conversions;
       convertedAt := now |}))
    (fun error => Return (ErrorRecord item (message error))).
Proof.
  intros Hs Hq Hu. unfold standardizeItem, standardizeFields.
  rewrite Hs, Hq, Hu. reflexivity.
Qed.



(** [standardizeItem] returns for every item that is an object: the
    validation answers with a record, and everything after it runs inside the
    [try]. *)
Lemma standardizeItem_total (this : Converter) (now : string) (item : InventoryItem) :
  exists r, standardizeItem this now item = Return r.
Proof.
  unfold standardizeItem, standardizeFields.
  destruct (negb (truthy_string (item_sku item))
            || negb (truthy_number (item_quantity item))
            || negb (truthy_string (item_unit item))); [eexists; reflexivity|].
  unfold try_catch.
  destruct (read_master this "supportedUnits" ≫= _); eexists; reflexivity.
Qed.

(** C7. The code does not do what the claim says for an item that is
    [null] or [undefined]: the destructuring of [item] stands before the
    validation and outside the [try], so [standardizeItem] throws a
    [TypeError] to its caller, whatever the converter holds, and a batch
    with such an element throws with it. *)
Theorem standardizeItem_null_throws (this : Converter) (now : string)
    (clock : nat -> string) (rest : list (string * Json)) :
  standardizeItem this now ElemNull =
    Throw (TypeError "Cannot destructure property 'sku' of 'item' as it is null.") /\
  standardizeItem this now ElemUndefined =
    Throw (TypeError
             "Cannot destructure property 'sku' of 'item' as it is undefined.") /\
  processInventoryData scenario clock
    (Some {| data_items := ItemsArray [ElemObject scenarioItem; ElemNull];
             data_rest := rest |}) =
    Throw (TypeError "Cannot destructure property 'sku' of 'item' as it is null.").
Proof. split; [reflexivity|]. split; [reflexivity|]. vm_compute. reflexivity. Qed.

(** X19. For every item that is an object, [standardizeItem] returns,
    whatever the converter holds, a missing master document included: the
    result is a standardized item carrying the item's sku, quantity and unit,
    or an error record of the item. An item without a truthy sku, quantity
    or unit gives the "Missing required fields" record. *)
Theorem standardizeItem_object_returns (this : Converter) (now : string)
    (item : InventoryItem) :
  exists r, standardizeItem this now (ElemObject item) = Return r /\
    match r with
    | Standardized s =>
        std_sku s = item_sku item /\ originalQuantity s = item_quantity item /\
        originalUnit s = item_unit item
    | ErrorRecord item' _ => item' = item
    end /\
    (truthy_string (item_sku item) && truthy_number (item_quantity item)
       && truthy_string (item_unit item) = false ->
     r = ErrorRecord item "Missing required fields: sku, quantity, unit").
Proof.
  unfold standardizeItem, standardizeFields.
  destruct (truthy_string (item_sku item)); simpl;
    [|eexists; split; [reflexivity|]; split; [reflexivity|reflexivity]].
  destruct (truthy_number (item_quantity item)); simpl;
    [|eexists; split; [reflexivity|]; split; [reflexivity|reflexivity]].
  destruct (truthy_string (item_unit item)); simpl;
    [|eexists; split; [reflexivity|]; split; [reflexivity|reflexivity]].
  destruct (read_master this "supportedUnits") as [table|e]; simpl;
    [|eexists; split; [reflexivity|]; split; [reflexivity|discriminate]].
  destruct (for_of (supportedUnits table) _ ∅) as [m|e]; simpl;
    eexists; (split; [reflexivity|]); (split; [|discriminate]).
  - repeat split.
  - reflexivity.
Qed.

(** *** Mapping over the items *)

(** The two equations of sequencing and of [map]. *)
Lemma bind_Return {A B} (a : A) (k : A -> Exn B) : (Return a ≫= k) = k a.
Proof. reflexivity. Qed.

Lemma Array_map_cons {A B} (f : A -> nat -> Exn B) (k : nat) (x : A) (l : list A) :
  Array_map f k (x :: l) =
  (y ← f x k; ys ← Array_map f (S k) l; Return (y :: ys)).
Proof. reflexivity. Qed.

(** [map] over a concatenation. *)
Lemma Array_map_app {A B} (f : A -> nat -> Exn B) (k : nat) (l1 l2 : list A) :
  Array_map f k (l1 ++ l2) =
  (ys1 ← Array_map f k l1;
   ys2 ← Array_map f (k + length l1) l2;
   Return (ys1 ++ ys2)).
Proof.
  revert k. induction l1 as [|x l1 IH]; intros k; simpl.
  - rewrite Nat.add_0_r. destruct (Array_map f k l2); reflexivity.
  - destruct (f x k) as [y|e]; simpl; [|reflexivity].
    rewrite IH. replace (S k + length l1)%nat with (k + S (length l1))%nat by lia.
    destruct (Array_map f (S k) l1) as [ys1|e]; simpl; [|reflexivity].
    destruct (Array_map f (k + S (length l1)) l2); reflexivity.
Qed.

(** When the callback returns on every element, [map] returns the array of
    the results, in the order of the elements. *)
Lemma Array_map_Return {A B} (f : A -> nat -> Exn B) (P : B -> Prop)
    (k : nat) (l : list A) :
  (forall i x, l !! i = Some x -> exists y, f x (k + i)%nat = Return y /\ P y) ->
  exists ys, Array_map f k l = Return ys /\
    length ys = length l /\
    Forall P ys /\
    (forall i x, l !! i = Some x ->
       exists y, ys !! i = Some y /\ f x (k + i)%nat = Return y).
Proof.
  revert k. induction l as [|x l IH]; intros k Hall.
  - exists []. split; [reflexivity|]. split; [reflexivity|].
    split; [constructor|]. intros i x Hi. rewrite lookup_nil in Hi. discriminate.
  - destruct (Hall 0%nat x eq_refl) as (y & Hy & HP).
    rewrite Nat.add_0_r in Hy.
    destruct (IH (S k)) as (ys & Hys & Hlen & HPs & Hpt).
    { intros i x' Hi. replace (S k + i)%nat with (k + S i)%nat by lia.
      apply (Hall (S i)). exact Hi. }
    exists (y :: ys). simpl. rewrite Hy. simpl. rewrite Hys. simpl.
    split; [reflexivity|]. split; [simpl; lia|]. split; [constructor; assumption|].
    intros [|i] x' Hi; simpl in Hi.
    + injection Hi as <-. exists y. rewrite Nat.add_0_r. split; [reflexivity|exact Hy].
    + destruct (Hpt i x' Hi) as (y' & Hy' & Hf). exists y'.
      split; [exact Hy'|]. replace (k + S i)%nat with (S k + i)%nat by lia. exact Hf.
Qed.

(** When the callback throws on some element, [map] throws what the first
    such element throws. *)
Lemma Array_map_Throw {A B} (f : A -> nat -> Exn B) (k : nat) (l : list A) :
  (exists i x e, l !! i = Some x /\ f x (k + i)%nat = Throw e) ->
  exists i x e, l !! i = Some x /\ f x (k + i)%nat = Throw e /\
    (forall j x', (j < i)%nat -> l !! j = Some x' ->
       exists y, f x' (k + j)%nat = Return y) /\
    Array_map f k l = Throw e.
Proof.
  revert k. induction l as [|x l IH]; intros k (i & x0 & e & Hi & He).
  - rewrite lookup_nil in Hi. discriminate.
  - simpl. destruct (f x k) as [y|ex] eqn:Hx.
    + destruct i as [|i].
      { simpl in Hi. injection Hi as <-. rewrite Nat.add_0_r in He. congruence. }
      destruct (IH (S k)) as (i' & x' & e' & Hi' & He' & Hbefore & Hmap).
      { exists i, x0, e. split; [exact Hi|].
        replace (S k + i)%nat with (k + S i)%nat by lia. exact He. }
      exists (S i'), x', e'. split; [exact Hi'|].
      split; [replace (k + S i')%nat with (S k + i')%nat by lia; exact He'|].
      split.
      * intros [|j] x'' Hj Hlk; simpl in Hlk.
        -- injection Hlk as <-. exists y. rewrite Nat.add_0_r. exact Hx.
        -- replace (k + S j)%nat with (S k + j)%nat by lia.
           apply (Hbefore j x''); [lia | exact Hlk].
      * simpl. rewrite Hmap. reflexivity.
    + exists 0%nat, x, ex. split; [reflexivity|].
      split; [rewrite Nat.add_0_r; exact Hx|].
      split; [intros j x' Hj; lia | reflexivity].
Qed.

Lemma filter_none {A} (p : A -> bool) (l : list A) :
  Forall (fun x => p x = false) l -> List.filter p l = [].
Proof.
  induction 1 as [|x l Hx _ IH]; simpl; [reflexivity|]. rewrite Hx. exact IH.
Qed.

Lemma filter_all {A} (p : A -> bool) (l : list A) :
  Forall (fun x => p x = true) l -> List.filter p l = l.
Proof.
  induction 1 as [|x l Hx _ IH]; simpl; [reflexivity|]. rewrite Hx, IH. reflexivity.
Qed.

(** *** The batch processor *)

(** C8. With a master document loaded, a batch whose [items] is an array of
    N items of which exactly one lacks a truthy sku, the others standardizing
    successfully, gives N results in the order of the items: the result at
    each position is what [standardizeItem] returns for the item at that
    position, one of them is an error record and N - 1 are standardized
    items. A payload that is falsy, or whose [items] is missing or not an
    array, is rejected with the "Invalid inventory data format" error,
    whatever the converter holds. *)
Theorem processInventoryData_isolation (t : ConversionTable) (clock : nat -> string)
    (d : InventoryData) (l1 l2 : list Element) (bad : InventoryItem) :
  data_items d = ItemsArray (l1 ++ ElemObject bad :: l2) ->
  truthy_string (item_sku bad) = false ->
  (forall i item, (l1 ++ ElemObject bad :: l2) !! i = Some item -> i <> length l1 ->
     exists r, standardizeItem (loaded t) (clock i) item = Return (Standardized r)) ->
  (exists res, processInventoryData (loaded t) clock (Some d) = Return res /\
     length (batch_items res) = length (l1 ++ ElemObject bad :: l2) /\
     (forall i item, (l1 ++ ElemObject bad :: l2) !! i = Some item ->
        exists r, batch_items res !! i = Some r /\
          standardizeItem (loaded t) (clock i) item = Return r) /\
     batch_items res !! length l1 =
       Some (ErrorRecord bad "Missing required fields: sku, quantity, unit") /\
     length (List.filter is_ErrorRecord (batch_items res)) = 1%nat /\
     length (List.filter is_Standardized (batch_items res)) =
       (length (l1 ++ ElemObject bad :: l2) - 1)%nat /\
     batch_rest res = data_rest d /\
     conversionVersion res = version t) /\
  (forall this d',
     (data_items d' = ItemsMissing \/ exists v, data_items d' = ItemsNotArray v) ->
     processInventoryData this clock (Some d') =
       Throw (Error "Invalid inventory data format. Expected { items: [] }")) /\
  (forall this,
     processInventoryData this clock None =
       Throw (Error "Invalid inventory data format. Expected { items: [] }")).
Proof.
  intros Hitems Hbad Hothers. split; [|split].
  - unfold processInventoryData. rewrite Hitems.
    set (f := fun item i => standardizeItem (loaded t) (clock i) item).
    assert (Hf_bad : f bad (length l1) =
              Return (ErrorRecord bad "Missing required fields: sku, quantity, unit")).
    { unfold f, standardizeItem, standardizeFields. rewrite Hbad. reflexivity. }
    destruct (Array_map_Return f (fun r => is_Standardized r = true) 0 l1)
      as (ys1 & Hys1 & Hlen1 & Hstd1 & _).
    { intros i item Hi. simpl.
      destruct (Hothers i item) as [r Hr].
      - rewrite lookup_app_l; [exact Hi|]. apply lookup_lt_Some in Hi. exact Hi.
      - apply lookup_lt_Some in Hi. lia.
      - exists (Standardized r). split; [exact Hr|reflexivity]. }
    destruct (Array_map_Return f (fun r => is_Standardized r = true)
                (S (length l1)) l2) as (ys2 & Hys2 & Hlen2 & Hstd2 & _).
    { intros i item Hi.
      destruct (Hothers (S (length l1) + i)%nat item) as [r Hr].
      - rewrite lookup_app_r by lia.
        replace (S (length l1) + i - length l1)%nat with (S i) by lia. exact Hi.
      - lia.
      - exists (Standardized r). split; [exact Hr|reflexivity]. }
    destruct (Array_map_Return f (fun _ => True) 0 (l1 ++ ElemObject bad :: l2))
      as (ys & Hys & Hlen & _ & Hpt).
    { intros i item Hi. simpl.
      destruct (decide (i = length l1)) as [->|Hne].
      - rewrite lookup_app_r, Nat.sub_diag in Hi by lia. injection Hi as <-.
        eexists. split; [exact Hf_bad | exact I].
      - destruct (Hothers i item Hi Hne) as [r Hr].
        exists (Standardized r). split; [exact Hr | exact I]. }
    assert (Hsplit : ys = ys1 ++ ErrorRecord bad
              "Missing required fields: sku, quantity, unit" :: ys2).
    { rewrite Array_map_app, Hys1, bind_Return, Array_map_cons in Hys.
      change (0 + length l1)%nat with (length l1) in Hys.
      rewrite Hf_bad, bind_Return, Hys2, !bind_Return in Hys.
      injection Hys as <-. reflexivity. }
    rewrite Hys. simpl. eexists. split; [reflexivity|]. simpl.
    split; [exact Hlen|]. split; [exact Hpt|].
    split; [|split; [|split; [|split; reflexivity]]].
    + rewrite Hsplit, lookup_app_r by lia.
      rewrite Hlen1, Nat.sub_diag. reflexivity.
    + rewrite Hsplit, List.filter_app. simpl.
      rewrite !filter_none; [reflexivity| |].
      * eapply Forall_impl; [exact Hstd2|]. intros [r|it e]; simpl; congruence.
      * eapply Forall_impl; [exact Hstd1|]. intros [r|it e]; simpl; congruence.
    + rewrite Hsplit, List.filter_app. simpl.
      rewrite !filter_all by assumption.
      rewrite !length_app. simpl. lia.
  - intros this d' [Hd | [v Hd]]; unfold processInventoryData; rewrite Hd; reflexivity.
  - reflexivity.
Qed.

Lemma processInventoryData_isolation_witness :
  exists res,
    processInventoryData scenario (fun _ => "2024-01-15T10:30:00.000Z")
      (Some {| data_items := ItemsArray [ElemObject scenarioItem; ElemObject noSkuItem];
               data_rest := [("source", JString "test-outlet")] |}) = Return res /\
    length (batch_items res) = 2%nat /\
    batch_items res !! 1%nat =
      Some (ErrorRecord noSkuItem "Missing required fields: sku, quantity, unit") /\
    length (List.filter is_ErrorRecord (batch_items res)) = 1%nat /\
    length (List.filter is_Standardized (batch_items res)) = 1%nat.
Proof.
  destruct (processInventoryData_isolation scenarioTable
              (fun _ => "2024-01-15T10:30:00.000Z")
              {| data_items := ItemsArray [ElemObject scenarioItem; ElemObject noSkuItem];
                 data_rest := [("source", JString "test-outlet")] |}
              [ElemObject scenarioItem] [] noSkuItem eq_refl eq_refl)
    as [(res & Hres & Hlen & _ & Hbad & Herr & Hstd & _) _].
  - intros [|[|i]] item Hi Hne; simpl in Hi.
    + injection Hi as <-. eexists. vm_compute. reflexivity.
    + simpl in Hne. lia.
    + discriminate Hi.
  - exists res. split; [exact Hres|]. split; [exact Hlen|].
    split; [exact Hbad|]. split; [exact Herr | exact Hstd].
Defined.

(** *** The direct conversion API *)

(** A division by a zero, of either sign, is never finite. *)
Lemma div_zero_not_finite (x y : float) :
  is_zero y = true -> isFinite (x / y) = false.
Proof.
  unfold is_zero, isFinite. rewrite FloatAxioms.eqb_spec, div_spec. intros Hy.
  change (Prim2SF zero) with (S754_zero false) in Hy.
  destruct (Prim2SF y) as [sy|sy| |sy my ey]; try discriminate Hy.
  - destruct (Prim2SF x) as [sx|sx| |sx mx ex]; reflexivity.
  - destruct sy; discriminate Hy.
  - destruct sy; discriminate Hy.
Qed.

(** C9. [convertUnits] does not isolate failures: if [convertUnit] throws for
    some item, the call throws what the first such item throws and returns no
    array. If it returns for every item, the call returns one element per
    item, in order, holding the item, [convertedQuantity], [convertedUnit]
    and [conversionFactor = convertedQuantity / quantity]; that division is
    not guarded, so a quantity of zero gives a factor that is not finite.
    [convertUnits([{sku: X, quantity: 1, unit: BOGUS}], "PIECE")] throws the
    missing-rule error. *)
Theorem convertUnits_abort (this : Converter) (items : list InventoryItem)
    (targetUnit : option string) :
  ((exists item e, item ∈ items /\
      convertUnit this (item_quantity item) (item_unit item) targetUnit
        (item_sku item) = Throw e) ->
   exists item e, item ∈ items /\
     convertUnit this (item_quantity item) (item_unit item) targetUnit
       (item_sku item) = Throw e /\
     convertUnits this items targetUnit = Throw e) /\
  ((forall item, item ∈ items ->
      exists c, convertUnit this (item_quantity item) (item_unit item) targetUnit
                  (item_sku item) = Return c) ->
   exists rs, convertUnits this items targetUnit = Return rs /\
     length rs = length items /\
     forall i item, items !! i = Some item ->
       exists c,
         convertUnit this (item_quantity item) (item_unit item) targetUnit
           (item_sku item) = Return c /\
         rs !! i = Some {|
           conv_item := item;
           convertedQuantity := c;
           convertedUnit := targetUnit;
           conversionFactor := (toNumber c / toNumber (item_quantity item))%float |} /\
         (is_zero (toNumber (item_quantity item)) = true ->
          isFinite (toNumber c / toNumber (item_quantity item)) = false)) /\
  convertUnits scenario [bogusItem] (Some "PIECE") =
    Throw (Error "No conversion rule found for BOGUS to PIECE").
Proof.
  split; [|split].
  - intros (item & e & Hin & He).
    apply list_elem_of_lookup in Hin as [i Hi].
    unfold convertUnits.
    match goal with
    | |- context [Array_map ?f 0%nat items] =>
        destruct (Array_map_Throw f 0 items) as (i' & item' & e' & Hi' & He' & _ & Hmap)
    end.
    { exists i, item, e. split; [exact Hi|]. rewrite He. reflexivity. }
    exists item', e'. split; [apply list_elem_of_lookup; eauto|].
    destruct (convertUnit this (item_quantity item') (item_unit item') targetUnit
                (item_sku item')) as [c|e0]; [discriminate He'|].
    simpl in He'. injection He' as ->. split; [reflexivity | exact Hmap].
  - intros Hall.
    unfold convertUnits.
    match goal with
    | |- context [Array_map ?f 0%nat items] =>
        destruct (Array_map_Return f (fun _ => True) 0 items)
          as (rs & Hrs & Hlen & _ & Hpt)
    end.
    { intros i item Hi.
      destruct (Hall item) as [c Hc]; [apply list_elem_of_lookup; eauto|].
      rewrite Hc. eexists. split; [reflexivity | exact I]. }
    exists rs. split; [exact Hrs|]. split; [exact Hlen|].
    intros i item Hi. destruct (Hpt i item Hi) as (y & Hy & Hf).
    destruct (convertUnit this (item_quantity item) (item_unit item) targetUnit
                (item_sku item)) as [c|e0]; [|discriminate Hf].
    simpl in Hf. injection Hf as <-.
    exists c. split; [reflexivity|]. split; [exact Hy|].
    apply div_zero_not_finite.
  - vm_compute. reflexivity.
Qed.

Lemma convertUnits_abort_witness :
  (exists item e, item ∈ [scenarioItem; bogusItem] /\
     convertUnit scenario (item_quantity item) (item_unit item) (Some "PIECE")
       (item_sku item) = Throw e /\
     convertUnits scenario [scenarioItem; bogusItem] (Some "PIECE") = Throw e) /\
  (exists rs, convertUnits scenario [scenarioItem] (Some "BOX") = Return rs /\
     length rs = 1%nat).
Proof.
  split.
  - destruct (convertUnits_abort scenario [scenarioItem; bogusItem] (Some "PIECE"))
      as [Habort _].
    apply Habort. exists bogusItem. eexists. split; [right; left|].
    vm_compute. reflexivity.
  - destruct (convertUnits_abort scenario [scenarioItem] (Some "BOX"))
      as (_ & Hok & _).
    destruct Hok as (rs & Hrs & Hlen & _).
    + intros item Hin. apply list_elem_of_singleton in Hin as ->.
      eexists. vm_compute. reflexivity.
    + exists rs. split; assumption.
Defined.

(** *** The concrete scenario *)

(** C10. With the specification's table, standardizing
    [{sku: SKU001, quantity: 120, unit: PIECE}] succeeds and gives
    [standardizedUnits = {PIECE: 120, BOX: 12, CARTON: 1.5}]. *)
Theorem standardizeItem_scenario (now : string) :
  standardizeItem scenario now scenarioItem =
  Return (Standardized {|
    std_rest := [];
    std_sku := Some "SKU001";
    originalQuantity := Some 120%float;
    originalUnit := Some "PIECE";
    standardizedUnits :=
      <["PIECE" := Some 120%float]>
        (<["BOX" := Some 12%float]> (<["CARTON" := Some 1.5%float]> ∅));
    convertedAt := now |}).
Proof. vm_compute. reflexivity. Qed.

(** ** Further properties of the engine *)

(** *** Units outside the hierarchy *)

Lemma indexOf_from_absent (l : list string) (u : string) (k : Z) :
  u ∉ l -> indexOf_from l (Some u) k = -1.
Proof.
  revert k. induction l as [|y l IH]; intros k Hnin; simpl; [reflexivity|].
  apply not_elem_of_cons in Hnin as [Hne Hnin].
  rewrite decide_False by congruence. apply IH. exact Hnin.
Qed.

Lemma indexOf_present (l : list string) (u : string) :
  u ∈ l -> 0 <= indexOf l (Some u).
Proof.
  intros Hin. destruct (rank_exists l u Hin) as [n Hn].
  rewrite (indexOf_rank l u n Hn). lia.
Qed.

(** X1. A unit that [unitHierarchy] does not list has index -1 and the
    conversion is carried out all the same: when the target unit is not
    listed the quantity is multiplied by the factor, and when only the source
    unit is not listed it is divided by it. *)
Theorem convertUnit_outside_hierarchy (t : ConversionTable)
    (quantity : option float) (fromUnit toUnit : string) (sku : option string)
    (rules : ConversionRule) :
  fromUnit <> toUnit ->
  conversionRules t !! conversionKey (Some fromUnit) (Some toUnit) = Some rules ->
  (toUnit ∉ unitHierarchy t ->
   convertUnit (loaded t) quantity (Some fromUnit) (Some toUnit) sku =
   Return (Some (round2 (toNumber quantity * conversionFactorOf rules sku)%float))) /\
  (fromUnit ∉ unitHierarchy t -> toUnit ∈ unitHierarchy t ->
   convertUnit (loaded t) quantity (Some fromUnit) (Some toUnit) sku =
   Return (Some (round2 (toNumber quantity / conversionFactorOf rules sku)%float))).
Proof.
  intros Hne Hrule.
  assert (Hne' : Some fromUnit <> Some toUnit) by congruence.
  rewrite (convertUnit_rule t quantity _ _ sku rules Hne' Hrule).
  unfold rawResult, indexOf. split.
  - intros Hto. rewrite (indexOf_from_absent _ toUnit 0 Hto).
    destruct (decide (fromUnit ∈ unitHierarchy t)) as [Hfrom|Hfrom].
    + pose proof (indexOf_present _ _ Hfrom) as Hge. unfold indexOf in Hge.
      destruct (Z.ltb_spec (indexOf_from (unitHierarchy t) (Some fromUnit) 0) (-1));
        [lia | reflexivity].
    + rewrite (indexOf_from_absent _ fromUnit 0 Hfrom). reflexivity.
  - intros Hfrom Hto. rewrite (indexOf_from_absent _ fromUnit 0 Hfrom).
    pose proof (indexOf_present _ _ Hto) as Hge. unfold indexOf in Hge.
    destruct (Z.ltb_spec (-1) (indexOf_from (unitHierarchy t) (Some toUnit) 0));
      [reflexivity | lia].
Qed.

Lemma convertUnit_outside_hierarchy_witness :
  convertUnit (loaded palletTable) (Some 1%float) (Some "BOX") (Some "PALLET") None =
    Return (Some (round2 (1 * 40)%float)) /\
  convertUnit (loaded palletTable) (Some 1%float) (Some "PALLET") (Some "BOX") None =
    Return (Some (round2 (1 / 40)%float)).
Proof.
  split.
  - destruct (convertUnit_outside_hierarchy palletTable (Some 1%float) "BOX" "PALLET"
                None {| rule_default := 40; products := ∅ |}) as [Hmul _].
    + discriminate.
    + vm_compute. reflexivity.
    + apply Hmul. simpl. set_solver.
  - destruct (convertUnit_outside_hierarchy palletTable (Some 1%float) "PALLET" "BOX"
                None {| rule_default := 40; products := ∅ |}) as [_ Hdiv].
    + discriminate.
    + vm_compute. reflexivity.
    + apply Hdiv; simpl; set_solver.
Defined.

(** *** The whole batch *)

(** The results of a batch of objects, item by item. *)
Lemma processInventoryData_items (this : Converter) (clock : nat -> string)
    (l : list InventoryItem) :
  exists rs,
    Array_map (fun item i => standardizeItem this (clock i) item) 0%nat
      (ElemObject <$> l) = Return rs /\
    length rs = length l /\
    forall i (item : InventoryItem), l !! i = Some item ->
      exists r, rs !! i = Some r /\ standardizeItem this (clock i) item = Return r.
Proof.
  destruct (Array_map_Return (fun item i => standardizeItem this (clock i) item)
              (fun _ => True) 0 (ElemObject <$> l)) as (rs & Hrs & Hlen & _ & Hpt).
  { intros i item Hi. simpl.
    rewrite list_lookup_fmap in Hi.
    destruct (l !! i) as [fields|]; [|discriminate Hi]. injection Hi as <-.
    destruct (standardizeItem_total this (clock i) fields) as [r Hr].
    exists r. split; [exact Hr | exact I]. }
  exists rs. split; [exact Hrs|]. split; [rewrite Hlen; apply length_fmap|].
  intros i item Hi. apply (Hpt i (ElemObject item)).
  rewrite list_lookup_fmap, Hi. reflexivity.
Qed.

(** An element that is [null] or [undefined] makes the destructuring throw. *)
Lemma standardizeItem_not_object (this : Converter) (now : string) (item : Element) :
  isObject item = false ->
  exists msg, standardizeItem this now item = Throw (TypeError msg).
Proof. destruct item; [eexists; reflexivity | eexists; reflexivity | discriminate]. Qed.

(** The batch stops at the first element that is no object. *)
Lemma processInventoryData_first_null (this : Converter) (clock : nat -> string)
    (l : list Element) (i : nat) (item : Element) :
  l !! i = Some item ->
  isObject item = false ->
  (forall j item', (j < i)%nat -> l !! j = Some item' -> isObject item' = true) ->
  exists msg,
    standardizeItem this (clock i) item = Throw (TypeError msg) /\
    Array_map (fun item i => standardizeItem this (clock i) item) 0%nat l =
      Throw (TypeError msg).
Proof.
  intros Hi Hnull Hbefore.
  destruct (standardizeItem_not_object this (clock i) item Hnull) as [msg Hmsg].
  exists msg. split; [exact Hmsg|].
  destruct (Array_map_Throw (fun item i => standardizeItem this (clock i) item) 0 l)
    as (i' & item' & e' & Hi' & He' & Hok & Hmap).
  { exists i, item. eexists. split; [exact Hi | exact Hmsg]. }
  rewrite Hmap. simpl in He'.
  destruct (Nat.lt_trichotomy i' i) as [Hlt|[Heq|Hgt]].
  - pose proof (Hbefore i' item' Hlt Hi') as Hobj.
    destruct item' as [| |fields]; try discriminate Hobj.
    destruct (standardizeItem_total this (clock i') fields) as [r Hr].
    rewrite Hr in He'. discriminate He'.
  - subst i'. rewrite Hi in Hi'. injection Hi' as <-.
    rewrite Hmsg in He'. injection He' as <-. reflexivity.
  - destruct (Hok i item Hgt Hi) as [y Hy]. simpl in Hy.
    rewrite Hmsg in Hy. discriminate Hy.
Qed.

(** The items of any array are standardized, or a [TypeError] is thrown. *)
Lemma processInventoryData_elements (this : Converter) (clock : nat -> string)
    (l : list Element) (k : nat) :
  (exists rs,
     Array_map (fun item i => standardizeItem this (clock i) item) k l = Return rs) \/
  (exists msg,
     Array_map (fun item i => standardizeItem this (clock i) item) k l =
       Throw (TypeError msg)).
Proof.
  revert k. induction l as [|item l IH]; intros k; [left; eexists; reflexivity|].
  rewrite Array_map_cons. destruct item as [| |fields].
  - right. eexists. reflexivity.
  - right. eexists. reflexivity.
  - destruct (standardizeItem_total this (clock k) fields) as [r Hr].
    rewrite Hr, bind_Return.
    destruct (IH (S k)) as [[rs Hrs]|[msg Hmsg]].
    + left. rewrite Hrs. eexists. reflexivity.
    + right. rewrite Hmsg. eexists. reflexivity.
Qed.


(** X3. With a master document loaded, [processInventoryData] returns for
    every array whose elements are objects, whatever their fields hold: the
    result carries the payload's other fields, the table's version, the
    clock reading and one result per item, in order, each being what
    [standardizeItem] returns for the item at that position. An element that
    is [null] or [undefined] makes the call throw the [TypeError] of the
    first such element, and no result is returned for the other items. *)
Theorem processInventoryData_maps_items (t : ConversionTable)
    (clock : nat -> string) (rest : list (string * Json)) :
  (forall l : list InventoryItem,
     exists rs,
       processInventoryData (loaded t) clock
         (Some {| data_items := ItemsArray (ElemObject <$> l); data_rest := rest |}) =
       Return {| batch_rest := rest;
                 batch_items := rs;
                 processedAt := clock (length l);
                 conversionVersion := version t |} /\
       length rs = length l /\
       forall i (item : InventoryItem), l !! i = Some item ->
         exists r, rs !! i = Some r /\
           standardizeItem (loaded t) (clock i) item = Return r) /\
  (forall (l : list Element) (i : nat) (item : Element),
     l !! i = Some item ->
     isObject item = false ->
     (forall j item', (j < i)%nat -> l !! j = Some item' -> isObject item' = true) ->
     exists msg,
       standardizeItem (loaded t) (clock i) item = Throw (TypeError msg) /\
       processInventoryData (loaded t) clock
         (Some {| data_items := ItemsArray l; data_rest := rest |}) =
       Throw (TypeError msg)).
Proof.
  split.
  - intros l.
    destruct (processInventoryData_items (loaded t) clock l) as (rs & Hrs & Hlen & Hpt).
    exists rs. split; [|split; [exact Hlen | exact Hpt]].
    unfold processInventoryData. simpl. rewrite Hrs. simpl.
    rewrite length_fmap. reflexivity.
  - intros l i item Hi Hnull Hbefore.
    destruct (processInventoryData_first_null (loaded t) clock l i item Hi Hnull Hbefore)
      as (msg & Hmsg & Hmap).
    exists msg. split; [exact Hmsg|].
    unfold processInventoryData. simpl. rewrite Hmap. reflexivity.
Qed.

Lemma processInventoryData_maps_items_witness :
  (exists rs,
     processInventoryData scenario (fun _ => "2024-01-15T10:30:00.000Z")
       (Some {| data_items := ItemsArray [ElemObject scenarioItem; ElemObject noSkuItem];
                data_rest := [] |}) =
     Return {| batch_rest := [];
               batch_items := rs;
               processedAt := "2024-01-15T10:30:00.000Z";
               conversionVersion := "1.0.0" |} /\
     length rs = 2%nat) /\
  processInventoryData scenario (fun _ => "2024-01-15T10:30:00.000Z")
    (Some {| data_items := ItemsArray [ElemObject scenarioItem; ElemNull;
                                       ElemObject noSkuItem];
             data_rest := [] |}) =
  Throw (TypeError "Cannot destructure property 'sku' of 'item' as it is null.").
Proof.
  destruct (processInventoryData_maps_items scenarioTable
              (fun _ => "2024-01-15T10:30:00.000Z") []) as [Hobjects Hnull].
  split.
  - destruct (Hobjects [scenarioItem; noSkuItem]) as (rs & Hrs & Hlen & _).
    exists rs. split; [exact Hrs | exact Hlen].
  - destruct (Hnull [ElemObject scenarioItem; ElemNull; ElemObject noSkuItem]
                1%nat ElemNull eq_refl eq_refl) as (msg & Hmsg & Hthrow).
    + intros [|j] item' Hj Hlk; [|lia]. injection Hlk as <-. reflexivity.
    + injection Hmsg as <-. exact Hthrow.
Defined.

(** *** When an item standardizes *)

(** A missing rule, for units that may be [undefined]. *)
Lemma convertUnit_missing (t : ConversionTable) (quantity : option float)
    (fromUnit toUnit sku : option string) :
  fromUnit <> toUnit ->
  conversionRules t !! conversionKey fromUnit toUnit = None ->
  convertUnit (loaded t) quantity fromUnit toUnit sku =
  Throw (Error ("No conversion rule found for " +:+ toString fromUnit
                +:+ " to " +:+ toString toUnit)).
Proof.
  intros Hne Hrule. unfold convertUnit. rewrite decide_False by exact Hne.
  simpl. rewrite Hrule. reflexivity.
Qed.

(** With a table loaded, a conversion between different units returns
    exactly when the pair has a rule. *)
Lemma convertUnit_Return_iff (t : ConversionTable) (quantity : option float)
    (fromUnit toUnit sku : option string) :
  fromUnit <> toUnit ->
  (exists v, convertUnit (loaded t) quantity fromUnit toUnit sku = Return v) <->
  is_Some (conversionRules t !! conversionKey fromUnit toUnit).
Proof.
  intros Hne. split.
  - intros [v Hv].
    destruct (conversionRules t !! conversionKey fromUnit toUnit) as [rules|] eqn:Hrule;
      [eexists; reflexivity|].
    rewrite (convertUnit_missing t quantity _ _ sku Hne Hrule) in Hv. discriminate Hv.
  - intros [rules Hrule]. eexists.
    apply (convertUnit_rule t quantity _ _ sku rules Hne Hrule).
Qed.

(** The loop over the first units, then over the others. *)
Lemma for_of_app {A S} (l1 l2 : list A) (body : A -> S -> Exn S) (s : S) :
  for_of (l1 ++ l2) body s = (s' ← for_of l1 body s; for_of l2 body s').
Proof.
  revert s. induction l1 as [|x l1 IH]; intros s; simpl; [reflexivity|].
  destruct (body x s) as [s'|e]; simpl; [apply IH | reflexivity].
Qed.

(** What the loop throws was thrown by the conversion to one of the units. *)
Lemma for_of_standardize_Throw_inv (this : Converter) (quantity : option float)
    (unit sku : option string) (l : list string)
    (acc : gmap string (option float)) (e : JsError) :
  for_of l (standardizeStep this quantity unit sku) acc = Throw e ->
  exists u, u ∈ l /\ convertUnit this quantity unit (Some u) sku = Throw e.
Proof.
  revert acc. induction l as [|x l IH]; intros acc Hloop; simpl in Hloop.
  - discriminate Hloop.
  - rewrite standardizeStep_convertUnit in Hloop.
    destruct (convertUnit this quantity unit (Some x) sku) as [vx|ex] eqn:Hx;
      simpl in Hloop.
    + destruct (IH _ Hloop) as (u & Hu & He). exists u. split; [right; exact Hu | exact He].
    + injection Hloop as ->. exists x. split; [left | exact Hx].
Qed.

(** When the loop returns, the conversion to every unit returned. *)
Lemma for_of_standardize_Return_inv (this : Converter) (quantity : option float)
    (unit sku : option string) (l : list string)
    (acc m : gmap string (option float)) :
  for_of l (standardizeStep this quantity unit sku) acc = Return m ->
  forall u, u ∈ l -> exists v, convertUnit this quantity unit (Some u) sku = Return v.
Proof.
  intros Hloop u Hu.
  destruct (convertUnit this quantity unit (Some u) sku) as [v|e] eqn:Hv;
    [eexists; reflexivity|].
  destruct (for_of_standardize_Throw this quantity unit sku l acc)
    as (u' & e' & _ & _ & Hthrow).
  { exists u, e. split; assumption. }
  rewrite Hthrow in Hloop. discriminate Hloop.
Qed.

(** X4. With a master document loaded, an item that passes the validation
    is standardized exactly when [conversionRules] has a rule from the item's
    unit to every other supported unit. *)
Theorem standardizeItem_success_iff_rules (t : ConversionTable) (now : string)
    (item : InventoryItem) :
  truthy_string (item_sku item) = true ->
  truthy_number (item_quantity item) = true ->
  truthy_string (item_unit item) = true ->
  (exists r, standardizeItem (loaded t) now item = Return (Standardized r)) <->
  (forall u, u ∈ supportedUnits t -> item_unit item <> Some u ->
     is_Some (conversionRules t !! conversionKey (item_unit item) (Some u))).
Proof.
  intros Hs Hq Hu. rewrite (standardizeItem_valid _ now item Hs Hq Hu). simpl.
  split.
  - intros [r Hr] u Hin Hne.
    destruct (for_of (supportedUnits t) _ ∅) as [m|e] eqn:Hloop; simpl in Hr;
      [|discriminate Hr].
    apply (convertUnit_Return_iff t (item_quantity item) _ _ (item_sku item) Hne).
    exact (for_of_standardize_Return_inv _ _ _ _ _ _ _ Hloop u Hin).
  - intros Hrules.
    destruct (for_of_standardize_Return (loaded t) (item_quantity item)
                (item_unit item) (item_sku item) (supportedUnits t) ∅)
      as (m & Hloop & _).
    { intros u Hin. destruct (decide (item_unit item = Some u)) as [->|Hne].
      - eexists. apply convertUnit_same_unit.
      - apply convertUnit_Return_iff; [exact Hne|]. apply Hrules; assumption. }
    rewrite Hloop. simpl. eexists. reflexivity.
Qed.

Lemma standardizeItem_success_iff_rules_witness :
  (exists r, standardizeItem scenario "2024-01-15T10:30:00.000Z" scenarioItem =
               Return (Standardized r)) /\
  ~ (exists r, standardizeItem (loaded palletTable) "2024-01-15T10:30:00.000Z"
                 scenarioItem = Return (Standardized r)).
Proof.
  split.
  - apply (standardizeItem_success_iff_rules scenarioTable
             "2024-01-15T10:30:00.000Z" scenarioItem eq_refl eq_refl eq_refl).
    intros u Hin Hne.
    assert (Hcases : u = "PIECE" \/ u = "BOX" \/ u = "CARTON").
    { simpl in Hin. set_solver. }
    destruct Hcases as [->|[->| ->]]; [contradiction Hne; reflexivity| |];
      vm_compute; eexists; reflexivity.
  - intros Hok.
    pose proof (proj1 (standardizeItem_success_iff_rules palletTable
                         "2024-01-15T10:30:00.000Z" scenarioItem
                         eq_refl eq_refl eq_refl) Hok) as Hall.
    destruct (Hall "BOX") as [rules Hrules].
    + simpl. set_solver.
    + discriminate.
    + vm_compute in Hrules. discriminate Hrules.
Defined.

(** X5. When the item passes the validation, the error record names the
    first supported unit, in the order of [supportedUnits], that differs from
    the item's unit and has no rule; later units are not looked at. *)
Theorem standardizeItem_first_missing_rule (t : ConversionTable) (now : string)
    (item : InventoryItem) (l1 l2 : list string) (u : string) :
  truthy_string (item_sku item) = true ->
  truthy_number (item_quantity item) = true ->
  truthy_string (item_unit item) = true ->
  supportedUnits t = l1 ++ u :: l2 ->
  (forall u', u' ∈ l1 ->
     item_unit item = Some u' \/
     is_Some (conversionRules t !! conversionKey (item_unit item) (Some u'))) ->
  item_unit item <> Some u ->
  conversionRules t !! conversionKey (item_unit item) (Some u) = None ->
  standardizeItem (loaded t) now item =
  Return (ErrorRecord item
            ("No conversion rule found for " +:+ toString (item_unit item)
             +:+ " to " +:+ u)).
Proof.
  intros Hs Hq Hu Hsup Hbefore Hne Hrule.
  rewrite (standardizeItem_valid _ now item Hs Hq Hu). simpl.
  rewrite Hsup, for_of_app.
  destruct (for_of_standardize_Return (loaded t) (item_quantity item)
              (item_unit item) (item_sku item) l1 ∅) as (m & Hloop & _).
  { intros u' Hin. destruct (Hbefore u' Hin) as [->|Hsome].
    - eexists. apply convertUnit_same_unit.
    - destruct (decide (item_unit item = Some u')) as [->|Hne'].
      + eexists. apply convertUnit_same_unit.
      + apply convertUnit_Return_iff; assumption. }
  rewrite Hloop. simpl. rewrite standardizeStep_convertUnit.
  rewrite (convertUnit_missing t (item_quantity item) _ _ (item_sku item) Hne Hrule).
  reflexivity.
Qed.

Lemma standardizeItem_first_missing_rule_witness :
  standardizeItem (loaded palletTable) "2024-01-15T10:30:00.000Z" scenarioItem =
  Return (ErrorRecord scenarioItem "No conversion rule found for PIECE to BOX").
Proof.
  apply (standardizeItem_first_missing_rule palletTable "2024-01-15T10:30:00.000Z"
           scenarioItem ["PIECE"] ["CARTON"] "BOX" eq_refl eq_refl eq_refl eq_refl).
  - intros u' Hin. left. apply list_elem_of_singleton in Hin as ->. reflexivity.
  - discriminate.
  - vm_compute. reflexivity.
Defined.

(** The conversion reads only the rules and the hierarchy of the table. *)
Lemma convertUnit_ext (t1 t2 : ConversionTable) (quantity : option float)
    (fromUnit toUnit sku : option string) :
  conversionRules t1 = conversionRules t2 ->
  unitHierarchy t1 = unitHierarchy t2 ->
  convertUnit (loaded t1) quantity fromUnit toUnit sku =
  convertUnit (loaded t2) quantity fromUnit toUnit sku.
Proof. intros Hrules Hhier. unfold convertUnit. simpl. rewrite Hrules, Hhier. reflexivity. Qed.

(** X6. The entries of [standardizedUnits] depend on which units are
    supported, not on their order or repetition in [supportedUnits]: two
    master documents with the same rules, the same hierarchy and the same
    supported units listed differently give the same standardized item. *)
Theorem standardizeItem_supportedUnits_order (t1 t2 : ConversionTable)
    (now : string) (item : InventoryItem) (r : StandardizedItem) :
  conversionRules t1 = conversionRules t2 ->
  unitHierarchy t1 = unitHierarchy t2 ->
  (forall u, u ∈ supportedUnits t1 <-> u ∈ supportedUnits t2) ->
  standardizeItem (loaded t1) now item = Return (Standardized r) ->
  standardizeItem (loaded t2) now item = Return (Standardized r).
Proof.
  intros Hrules Hhier Hsame Hr.
  destruct (truthy_string (item_sku item)) eqn:Hs;
    [|unfold standardizeItem, standardizeFields in Hr; rewrite Hs in Hr; discriminate Hr].
  destruct (truthy_number (item_quantity item)) eqn:Hq;
    [|unfold standardizeItem, standardizeFields in Hr; rewrite Hs, Hq in Hr; discriminate Hr].
  destruct (truthy_string (item_unit item)) eqn:Hu;
    [|unfold standardizeItem, standardizeFields in Hr; rewrite Hs, Hq, Hu in Hr; discriminate Hr].
  rewrite (standardizeItem_valid _ now item Hs Hq Hu) in Hr.
  rewrite (standardizeItem_valid _ now item Hs Hq Hu). simpl in *.
  destruct (for_of (supportedUnits t1) _ ∅) as [m1|e] eqn:Hloop1; simpl in Hr;
    [|discriminate Hr].
  pose proof (for_of_standardize_Return_inv _ _ _ _ _ _ _ Hloop1) as Hall1.
  destruct (for_of_standardize_Return (loaded t1) (item_quantity item)
              (item_unit item) (item_sku item) (supportedUnits t1) ∅ Hall1)
    as (m1' & Hloop1' & _ & Hin1 & Hout1).
  rewrite Hloop1 in Hloop1'. injection Hloop1' as <-.
  destruct (for_of_standardize_Return (loaded t2) (item_quantity item)
              (item_unit item) (item_sku item) (supportedUnits t2) ∅)
    as (m2 & Hloop2 & _ & Hin2 & Hout2).
  { intros u Hin. destruct (Hall1 u) as [v Hv]; [apply Hsame; exact Hin|].
    exists v. rewrite <- Hv. symmetry. apply convertUnit_ext; assumption. }
  rewrite Hloop2. simpl.
  assert (Hm : m2 = m1).
  { apply map_eq. intros u.
    destruct (decide (u = "__proto__")) as [->|Hproto].
    { rewrite (Hout1 _ (or_intror eq_refl)). apply Hout2. right. reflexivity. }
    destruct (decide (u ∈ supportedUnits t1)) as [Hin|Hnin].
    - destruct (Hall1 u Hin) as [v Hv].
      rewrite (Hin1 u v Hin Hproto Hv).
      apply Hin2; [apply Hsame; exact Hin | exact Hproto |].
      rewrite <- Hv. symmetry. apply convertUnit_ext; assumption.
    - rewrite (Hout1 u (or_introl Hnin)). apply Hout2. left.
      intros Hin. apply Hnin, Hsame, Hin. }
  rewrite Hm. exact Hr.
Qed.

Lemma standardizeItem_supportedUnits_order_witness :
  exists r,
    standardizeItem scenario "2024-01-15T10:30:00.000Z" scenarioItem =
      Return (Standardized r) /\
    standardizeItem (loaded shuffledTable) "2024-01-15T10:30:00.000Z" scenarioItem =
      Return (Standardized r).
Proof.
  eexists. split; [vm_compute; reflexivity|].
  apply (standardizeItem_supportedUnits_order scenarioTable shuffledTable).
  - reflexivity.
  - reflexivity.
  - intros u. simpl. set_solver.
  - vm_compute. reflexivity.
Defined.

(** *** The validation *)

(** Nothing the engine throws carries the message of the validation. *)
Lemma convertUnit_Throw_message (this : Converter) (quantity : option float)
    (fromUnit toUnit sku : option string) (e : JsError) :
  convertUnit this quantity fromUnit toUnit sku = Throw e ->
  message e <> "Missing required fields: sku, quantity, unit".
Proof.
  unfold convertUnit. destruct (decide (fromUnit = toUnit)); [discriminate|].
  destruct this as [[t|]]; simpl.
  - destruct (conversionRules t !! conversionKey fromUnit toUnit); [discriminate|].
    intros [= <-]. simpl. discriminate.
  - intros [= <-]. simpl. discriminate.
Qed.

(** X10. [standardizeItem] returns the "Missing required fields" record
    exactly when the sku is missing or empty, the quantity is missing, 0 or
    NaN, or the unit is missing or empty; so an item whose quantity is 0 is
    never standardized, whatever the converter holds. *)
Theorem standardizeItem_missing_fields_iff (this : Converter) (now : string)
    (item : InventoryItem) :
  (standardizeItem this now item =
     Return (ErrorRecord item "Missing required fields: sku, quantity, unit") <->
   truthy_string (item_sku item) && truthy_number (item_quantity item)
     && truthy_string (item_unit item) = false) /\
  (forall x, item_quantity item = Some x -> is_zero x = true ->
     standardizeItem this now item =
       Return (ErrorRecord item "Missing required fields: sku, quantity, unit")).
Proof.
  assert (Hback : truthy_string (item_sku item) && truthy_number (item_quantity item)
                    && truthy_string (item_unit item) = false ->
                  standardizeItem this now item =
                    Return (ErrorRecord item
                              "Missing required fields: sku, quantity, unit")).
  { intros Hinvalid. unfold standardizeItem, standardizeFields.
    destruct (truthy_string (item_sku item)); [|reflexivity].
    destruct (truthy_number (item_quantity item)); [|reflexivity].
    destruct (truthy_string (item_unit item)); [discriminate Hinvalid | reflexivity]. }
  split; [split; [|exact Hback]|].
  - intros Hr.
    destruct (truthy_string (item_sku item)) eqn:Hs; [|reflexivity].
    destruct (truthy_number (item_quantity item)) eqn:Hq; [|reflexivity].
    destruct (truthy_string (item_unit item)) eqn:Hu; [|reflexivity].
    exfalso. rewrite (standardizeItem_valid _ now item Hs Hq Hu) in Hr.
    destruct this as [[t|]]; simpl in Hr.
    + destruct (for_of (supportedUnits t) _ ∅) as [m|e] eqn:Hloop; simpl in Hr;
        [discriminate Hr|].
      destruct (for_of_standardize_Throw_inv _ _ _ _ _ _ _ Hloop) as (u & _ & He).
      apply (convertUnit_Throw_message _ _ _ _ _ _ He). congruence.
    + discriminate Hr.
  - intros x Hx Hzero. apply Hback.
    rewrite Hx. simpl. rewrite Hzero. simpl.
    rewrite andb_false_r. reflexivity.
Qed.

(** *** The order of failures in [convertUnits] *)

(** X7. [convertUnits] throws what the first item, in array order, whose
    conversion fails throws: the items after it are not converted. *)
Theorem convertUnits_first_failure (this : Converter) (items : list InventoryItem)
    (targetUnit : option string) (i : nat) (item : InventoryItem) (e : JsError) :
  items !! i = Some item ->
  convertUnit this (item_quantity item) (item_unit item) targetUnit
    (item_sku item) = Throw e ->
  (forall j item', (j < i)%nat -> items !! j = Some item' ->
     exists c, convertUnit this (item_quantity item') (item_unit item') targetUnit
                 (item_sku item') = Return c) ->
  convertUnits this items targetUnit = Throw e.
Proof.
  intros Hi He Hbefore. unfold convertUnits.
  match goal with
  | |- Array_map ?f 0%nat items = _ =>
      destruct (Array_map_Throw f 0 items) as (i' & item' & e' & Hi' & He' & Hok & Hmap)
  end.
  { exists i, item, e. split; [exact Hi|]. rewrite He. reflexivity. }
  rewrite Hmap.
  destruct (Nat.lt_trichotomy i' i) as [Hlt|[Heq|Hgt]].
  - destruct (Hbefore i' item' Hlt Hi') as [c Hc].
    rewrite Hc in He'. discriminate He'.
  - subst i'. rewrite Hi in Hi'. injection Hi' as <-.
    rewrite He in He'. simpl in He'. injection He' as ->. reflexivity.
  - destruct (Hok i item Hgt Hi) as [y Hy].
    rewrite He in Hy. discriminate Hy.
Qed.

Lemma convertUnits_first_failure_witness :
  convertUnits scenario [scenarioItem; bogusItem; crateItem] (Some "BOX") =
  Throw (Error "No conversion rule found for BOGUS to BOX").
Proof.
  apply (convertUnits_first_failure scenario [scenarioItem; bogusItem; crateItem]
           (Some "BOX") 1 bogusItem).
  - reflexivity.
  - vm_compute. reflexivity.
  - intros [|j] item' Hj Hlk; [|lia].
    injection Hlk as <-. eexists. vm_compute. reflexivity.
Defined.

(** *** Values that are not numbers *)

Lemma nan_div (y : float) : (nan / y)%float = nan.
Proof.
  apply Prim2SF_inj. rewrite div_spec.
  change (Prim2SF nan) with S754_nan. reflexivity.
Qed.

Lemma nan_mul (y : float) : (nan * y)%float = nan.
Proof.
  apply Prim2SF_inj. rewrite mul_spec.
  change (Prim2SF nan) with S754_nan. reflexivity.
Qed.

(** X8. [convertUnit] does not validate the quantity: between different
    units that have a rule, a quantity that is [undefined] or NaN is
    converted to NaN, for every factor and direction, and nothing is
    thrown. *)
Theorem convertUnit_missing_quantity (t : ConversionTable)
    (quantity : option float) (fromUnit toUnit sku : option string)
    (rules : ConversionRule) :
  fromUnit <> toUnit ->
  conversionRules t !! conversionKey fromUnit toUnit = Some rules ->
  quantity = None \/ quantity = Some nan ->
  convertUnit (loaded t) quantity fromUnit toUnit sku = Return (Some nan).
Proof.
  intros Hne Hrule Hq.
  rewrite (convertUnit_rule t quantity _ _ sku rules Hne Hrule).
  assert (Hnan : toNumber quantity = nan) by (destruct Hq as [-> | ->]; reflexivity).
  unfold rawResult. rewrite Hnan.
  assert (Hround : round2 nan = nan) by (vm_compute; reflexivity).
  destruct (indexOf (unitHierarchy t) fromUnit <? indexOf (unitHierarchy t) toUnit);
    rewrite ?nan_div, ?nan_mul, Hround; reflexivity.
Qed.

Lemma convertUnit_missing_quantity_witness :
  convertUnit scenario None (Some "PIECE") (Some "BOX") (Some "SKU001") =
    Return (Some nan) /\
  convertUnits scenario [noQuantityItem] (Some "BOX") =
    Return [{| conv_item := noQuantityItem;
               convertedQuantity := Some nan;
               convertedUnit := Some "BOX";
               conversionFactor := nan |}].
Proof.
  assert (Hnan : convertUnit scenario None (Some "PIECE") (Some "BOX") (Some "SKU001") =
                 Return (Some nan)).
  { apply (convertUnit_missing_quantity scenarioTable None (Some "PIECE") (Some "BOX")
             (Some "SKU001") {| rule_default := 12;
                                products := {["SKU001" := 10%float]} |}).
    - discriminate.
    - vm_compute. reflexivity.
    - left. reflexivity. }
  split; [exact Hnan|].
  unfold convertUnits, noQuantityItem. simpl. rewrite Hnan. reflexivity.
Defined.

(** A number that is not finite stays so under the rounding. *)
Lemma round2_not_finite (x : float) :
  isFinite x = false -> isFinite (round2 x) = false.
Proof.
  unfold isFinite. intros Hx.
  assert (Hy : Prim2SF (x * 100) = S754_nan \/
               exists s, Prim2SF (x * 100) = S754_infinity s).
  { rewrite mul_spec. destruct (Prim2SF x) as [s|s| |s m e]; try discriminate Hx.
    - right. eexists. vm_compute. reflexivity.
    - left. reflexivity. }
  unfold round2, Math_round. rewrite div_spec.
  destruct Hy as [Hy|[s Hy]]; rewrite Hy; rewrite Hy; reflexivity.
Qed.

(** X9. A factor of 0 is not rejected: when the source unit ranks below the
    target unit, so that the quantity is divided by the factor, the
    conversion returns a number that is not finite (an infinity, or NaN for a
    quantity of 0 or NaN) instead of failing. *)
Theorem convertUnit_zero_factor (t : ConversionTable) (quantity : option float)
    (fromUnit toUnit : string) (sku : option string) (rules : ConversionRule)
    (i j : nat) :
  fromUnit <> toUnit ->
  conversionRules t !! conversionKey (Some fromUnit) (Some toUnit) = Some rules ->
  rank (unitHierarchy t) fromUnit i ->
  rank (unitHierarchy t) toUnit j ->
  (i < j)%nat ->
  is_zero (conversionFactorOf rules sku) = true ->
  exists r,
    convertUnit (loaded t) quantity (Some fromUnit) (Some toUnit) sku =
      Return (Some r) /\
    isFinite r = false.
Proof.
  intros Hne Hrule Hi Hj Hlt Hzero.
  rewrite (convertUnit_ranked t quantity fromUnit toUnit sku rules i j Hne Hrule Hi Hj).
  rewrite decide_True by exact Hlt.
  eexists. split; [reflexivity|].
  apply round2_not_finite, div_zero_not_finite, Hzero.
Qed.

Lemma convertUnit_zero_factor_witness :
  exists r,
    convertUnit (loaded zeroDefaultTable) (Some 24%float) (Some "PIECE")
      (Some "BOX") None = Return (Some r) /\
    isFinite r = false.
Proof.
  apply (convertUnit_zero_factor zeroDefaultTable (Some 24%float) "PIECE" "BOX" None
           {| rule_default := 0; products := ∅ |} 0 1).
  - discriminate.
  - vm_compute. reflexivity.
  - split; [reflexivity | intros j Hj; lia].
  - split; [reflexivity | intros [|j] Hj; [discriminate | lia]].
  - lia.
  - reflexivity.
Defined.

(** *** The factor of a conversion *)

Lemma div_nan (x : float) : (x / nan)%float = nan.
Proof.
  apply Prim2SF_inj. rewrite div_spec.
  change (Prim2SF nan) with S754_nan. destruct (Prim2SF x); reflexivity.
Qed.

Lemma mul_nan (x : float) : (x * nan)%float = nan.
Proof.
  apply Prim2SF_inj. rewrite mul_spec.
  change (Prim2SF nan) with S754_nan. destruct (Prim2SF x); reflexivity.
Qed.

(** X18. How the factor of a conversion between different units is
    resolved. The product's own entry in [products] is the factor when the
    sku is a non-empty string and the entry is neither 0 nor NaN.
    [rules.default] is the factor when no sku is given, when the sku is
    empty, when the entry is 0 or NaN, and when [products] has no entry for
    the sku and the sku is not the name of a member of [Object.prototype].
    When [products] has no entry and the sku is such a name ("toString",
    "constructor", ...), the inherited member is read instead and the
    conversion returns NaN. *)
Theorem convertUnit_factor_resolution (t : ConversionTable)
    (quantity : option float) (fromUnit toUnit sku : option string)
    (rules : ConversionRule) :
  fromUnit <> toUnit ->
  conversionRules t !! conversionKey fromUnit toUnit = Some rules ->
  (forall s f,
     sku = Some s -> s <> "" -> products rules !! s = Some f ->
     is_zero f = false -> is_nan f = false ->
     convertUnit (loaded t) quantity fromUnit toUnit sku =
     Return (Some (round2
       (rawResult (unitHierarchy t) quantity fromUnit toUnit f)))) /\
  (sku = None \/ sku = Some "" \/
   (exists s, sku = Some s /\ products rules !! s = None /\
              s ∉ objectPrototypeMembers) \/
   (exists s f, sku = Some s /\ products rules !! s = Some f /\
                (is_zero f || is_nan f) = true) ->
   convertUnit (loaded t) quantity fromUnit toUnit sku =
   Return (Some (round2
     (rawResult (unitHierarchy t) quantity fromUnit toUnit (rule_default rules))))) /\
  (forall s,
     sku = Some s -> products rules !! s = None -> s ∈ objectPrototypeMembers ->
     convertUnit (loaded t) quantity fromUnit toUnit sku = Return (Some nan)).
Proof.
  intros Hne Hrule.
  rewrite (convertUnit_rule t quantity _ _ sku rules Hne Hrule).
  split; [|split].
  - intros s f -> Hs Hf Hz Hn.
    rewrite (conversionFactorOf_override rules s f Hs Hf Hz Hn). reflexivity.
  - intros Hsku. rewrite (conversionFactorOf_default rules sku Hsku). reflexivity.
  - intros s -> Hs Hin.
    rewrite (conversionFactorOf_inherited rules s Hs Hin).
    assert (Hround : round2 nan = nan) by (vm_compute; reflexivity).
    unfold rawResult.
    destruct (indexOf (unitHierarchy t) fromUnit <? indexOf (unitHierarchy t) toUnit);
      rewrite ?div_nan, ?mul_nan, Hround; reflexivity.
Qed.

Lemma convertUnit_factor_resolution_witness :
  convertUnit scenario (Some 120%float) (Some "PIECE") (Some "BOX") (Some "SKU001") =
    Return (Some (round2 (120 / 10)%float)) /\
  convertUnit scenario (Some 120%float) (Some "PIECE") (Some "BOX") (Some "SKU999") =
    Return (Some (round2 (120 / 12)%float)) /\
  convertUnit (loaded zeroOverrideTable) (Some 24%float) (Some "PIECE") (Some "BOX")
    (Some "SKU001") = Return (Some (round2 (24 / 12)%float)) /\
  convertUnit scenario (Some 120%float) (Some "PIECE") (Some "BOX")
    (Some "constructor") = Return (Some nan).
Proof.
  assert (Hne : Some "PIECE" <> Some "BOX") by discriminate.
  assert (Hrule : conversionRules scenarioTable
                    !! conversionKey (Some "PIECE") (Some "BOX")
                  = Some {| rule_default := 12;
                            products := {["SKU001" := 10%float]} |}).
  { vm_compute. reflexivity. }
  assert (Hzero : conversionRules zeroOverrideTable
                    !! conversionKey (Some "PIECE") (Some "BOX")
                  = Some {| rule_default := 12;
                            products := {["SKU001" := 0%float]} |}).
  { vm_compute. reflexivity. }
  split; [|split; [|split]].
  - destruct (convertUnit_factor_resolution scenarioTable (Some 120%float)
                (Some "PIECE") (Some "BOX") (Some "SKU001") _ Hne Hrule)
      as (Hover & _ & _).
    apply (Hover "SKU001" 10%float); try reflexivity. discriminate.
  - destruct (convertUnit_factor_resolution scenarioTable (Some 120%float)
                (Some "PIECE") (Some "BOX") (Some "SKU999") _ Hne Hrule)
      as (_ & Hdef & _).
    apply Hdef. right. right. left. exists "SKU999".
    split; [reflexivity|]. split; [reflexivity|].
    unfold objectPrototypeMembers. rewrite !elem_of_cons, elem_of_nil.
    intros Hin. repeat (destruct Hin as [Hin|Hin]; [discriminate Hin|]). exact Hin.
  - destruct (convertUnit_factor_resolution zeroOverrideTable (Some 24%float)
                (Some "PIECE") (Some "BOX") (Some "SKU001") _ Hne Hzero)
      as (_ & Hdef & _).
    apply Hdef. right. right. right. exists "SKU001", 0%float.
    split; [reflexivity|]. split; reflexivity.
  - destruct (convertUnit_factor_resolution scenarioTable (Some 120%float)
                (Some "PIECE") (Some "BOX") (Some "constructor") _ Hne Hrule)
      as (_ & _ & Hinh).
    apply (Hinh "constructor"); [reflexivity | reflexivity |]. left.
Defined.

(** *** The HTTP handlers *)

(** X14. [POST /webhook/inventory] answers every request. With a master
    document loaded, an array whose elements are objects is answered with
    status 200 and one result per item, whatever the fields hold, failed
    items being error records inside the result. An array with an element
    that is [null] or [undefined] is answered with status 500, and so is a
    request without an array of items, with the "Invalid inventory data
    format" message. While no master document is loaded every request is
    answered with status 500. *)
Theorem webhookInventory_status (t : ConversionTable) (clock : nat -> string)
    (rest : list (string * Json)) :
  (forall l : list InventoryItem,
     exists result,
       webhookInventory (loaded t) clock
         (Some {| data_items := ItemsArray (ElemObject <$> l); data_rest := rest |}) =
         {| status := 200; body := SuccessBody result |} /\
       length (batch_items result) = length l) /\
  (forall this (l : list Element) (item : Element),
     item ∈ l -> isObject item = false ->
     status (webhookInventory this clock
               (Some {| data_items := ItemsArray l; data_rest := rest |})) = 500) /\
  (forall this req_body,
     (req_body = None \/
      exists d, req_body = Some d /\
        (data_items d = ItemsMissing \/ exists v, data_items d = ItemsNotArray v)) ->
     webhookInventory this clock req_body =
       {| status := 500;
          body := ErrorBody "Invalid inventory data format. Expected { items: [] }" |}) /\
  (forall req_body, status (webhookInventory unloaded clock req_body) = 500).
Proof.
  split; [|split; [|split]].
  - intros l.
    destruct (processInventoryData_items (loaded t) clock l) as (rs & Hrs & Hlen & _).
    eexists. unfold webhookInventory, processInventoryData. simpl.
    rewrite Hrs. simpl. split; [reflexivity | exact Hlen].
  - intros this l item Hin Hnull.
    apply list_elem_of_lookup in Hin as [i Hi].
    destruct (standardizeItem_not_object this (clock i) item Hnull) as [msg Hmsg].
    destruct (Array_map_Throw (fun item i => standardizeItem this (clock i) item) 0 l)
      as (i' & item' & e' & _ & _ & _ & Hmap).
    { exists i, item. eexists. split; [exact Hi | exact Hmsg]. }
    unfold webhookInventory, processInventoryData. simpl. rewrite Hmap. reflexivity.
  - intros this req_body [-> | (d & -> & [Hd | [v Hd]])];
      unfold webhookInventory, processInventoryData; rewrite ?Hd; reflexivity.
  - intros [d|]; [|reflexivity].
    unfold webhookInventory, processInventoryData.
    destruct (data_items d) as [|v|l']; try reflexivity.
    destruct (processInventoryData_elements unloaded clock l' 0)
      as [[rs Hrs]|[msg Hmsg]].
    + rewrite Hrs. reflexivity.
    + rewrite Hmsg. reflexivity.
Qed.

Lemma webhookInventory_status_witness :
  (exists result,
     webhookInventory scenario (fun _ => "2024-01-15T10:30:00.000Z")
       (Some {| data_items := ItemsArray [ElemObject scenarioItem; ElemObject noSkuItem];
                data_rest := [] |}) =
       {| status := 200; body := SuccessBody result |} /\
     length (batch_items result) = 2%nat) /\
  status (webhookInventory scenario (fun _ => "2024-01-15T10:30:00.000Z")
            (Some {| data_items := ItemsArray [ElemObject scenarioItem; ElemNull];
                     data_rest := [] |})) = 500.
Proof.
  destruct (webhookInventory_status scenarioTable
              (fun _ => "2024-01-15T10:30:00.000Z") []) as (Hok & Hnull & _).
  split.
  - exact (Hok [scenarioItem; noSkuItem]).
  - apply (Hnull scenario [ElemObject scenarioItem; ElemNull] ElemNull).
    + right. left.
    + reflexivity.
Defined.

(** X15. [POST /convert] answers with status 200 and one converted item per
    item when every conversion returns, and with status 500 and the message
    of the first failing conversion otherwise, without any of the converted
    items; a request whose [items] is not an array is answered with status
    500. *)
Theorem convertEndpoint_status (this : Converter) (items : list InventoryItem)
    (targetUnit : option string) :
  ((forall item, item ∈ items ->
      exists c, convertUnit this (item_quantity item) (item_unit item) targetUnit
                  (item_sku item) = Return c) ->
   exists result,
     convertEndpoint this
       (Some {| req_items := ItemsArray items; req_targetUnit := targetUnit |}) =
       {| status := 200; body := SuccessBody result |} /\
     length result = length items) /\
  (forall i item e,
     items !! i = Some item ->
     convertUnit this (item_quantity item) (item_unit item) targetUnit
       (item_sku item) = Throw e ->
     (forall j item', (j < i)%nat -> items !! j = Some item' ->
        exists c, convertUnit this (item_quantity item') (item_unit item') targetUnit
                    (item_sku item') = Return c) ->
     convertEndpoint this
       (Some {| req_items := ItemsArray items; req_targetUnit := targetUnit |}) =
       {| status := 500; body := ErrorBody (message e) |}) /\
  (forall req_body,
     (req_body = None \/
      exists request, req_body = Some request /\
        (req_items request = ItemsMissing \/
         exists v, req_items request = ItemsNotArray v)) ->
     status (convertEndpoint this req_body) = 500).
Proof.
  split; [|split].
  - intros Hall. unfold convertEndpoint. simpl. unfold convertUnits.
    match goal with
    | |- context [Array_map ?f 0%nat items] =>
        destruct (Array_map_Return f (fun _ => True) 0 items)
          as (rs & Hrs & Hlen & _)
    end.
    { intros i item Hi.
      destruct (Hall item) as [c Hc]; [apply list_elem_of_lookup; eauto|].
      rewrite Hc. eexists. split; [reflexivity | exact I]. }
    rewrite Hrs. exists rs. split; [reflexivity | exact Hlen].
  - intros i item e Hi He Hbefore. unfold convertEndpoint. simpl.
    unfold convertUnits.
    match goal with
    | |- context [Array_map ?f 0%nat items] =>
        destruct (Array_map_Throw f 0 items)
          as (i' & item' & e' & Hi' & He' & Hok & Hmap)
    end.
    { exists i, item, e. split; [exact Hi|]. rewrite He. reflexivity. }
    rewrite Hmap. simpl.
    destruct (Nat.lt_trichotomy i' i) as [Hlt|[Heq|Hgt]].
    + destruct (Hbefore i' item' Hlt Hi') as [c Hc].
      rewrite Hc in He'. discriminate He'.
    + subst i'. rewrite Hi in Hi'. injection Hi' as <-.
      rewrite He in He'. simpl in He'. injection He' as ->. reflexivity.
    + destruct (Hok i item Hgt Hi) as [y Hy].
      rewrite He in Hy. discriminate Hy.
  - intros req_body [-> | (request & -> & [Hr | [v Hr]])];
      unfold convertEndpoint; simpl; rewrite ?Hr; try reflexivity.
    destruct v; reflexivity.
Qed.

Lemma convertEndpoint_status_witness :
  (exists result,
     convertEndpoint scenario
       (Some {| req_items := ItemsArray [scenarioItem]; req_targetUnit := Some "BOX" |}) =
       {| status := 200; body := SuccessBody result |} /\
     length result = 1%nat) /\
  convertEndpoint scenario
    (Some {| req_items := ItemsArray [scenarioItem; bogusItem];
             req_targetUnit := Some "BOX" |}) =
    {| status := 500; body := ErrorBody "No conversion rule found for BOGUS to BOX" |}.
Proof.
  split.
  - destruct (convertEndpoint_status scenario [scenarioItem] (Some "BOX")) as [Hok _].
    apply Hok. intros item Hin. apply list_elem_of_singleton in Hin as ->.
    eexists. vm_compute. reflexivity.
  - destruct (convertEndpoint_status scenario [scenarioItem; bogusItem] (Some "BOX"))
      as (_ & Hfail & _).
    apply (Hfail 1%nat bogusItem (Error "No conversion rule found for BOGUS to BOX")).
    + reflexivity.
    + vm_compute. reflexivity.
    + intros [|j] item' Hj Hlk; [|lia].
      injection Hlk as <-. eexists. vm_compute. reflexivity.
Defined.

(** ** Properties of [parseCSV] *)

(** [split] makes one more piece than the separator occurs. *)
Lemma split_first_length (sep : ascii) (s : string) :
  length (snd (split_first sep s)) = occurrences sep s.
Proof.
  induction s as [|c s IH]; simpl; [reflexivity|].
  destruct (split_first sep s) as [first rest]. simpl in IH.
  destruct (Ascii.eqb c sep); simpl; rewrite IH; reflexivity.
Qed.

(** X11. [parseCSV] returns one item for every line feed of the trimmed
    content: the first line is the header line, every later line gives an
    item, blank lines included, and a content of one line or none gives no
    item. *)
Theorem parseCSV_item_count (csvContent : string) :
  length (parseCSV csvContent) = occurrences "010"%char (trim csvContent).
Proof.
  unfold parseCSV.
  pose proof (split_first_length "010"%char (trim csvContent)) as Hlen.
  destruct (split_first "010"%char (trim csvContent)) as [first rest].
  simpl in Hlen. rewrite length_fmap. exact Hlen.
Qed.

(** The fields that the loop over the headers assigns. *)
Lemma assignFields_dom (headers values : list string) (index : nat)
    (item : gmap string CsvValue) :
  dom (assignFields headers values index item) =
  (list_to_set headers ∖ {["__proto__"]}) ∪ dom item.
Proof.
  revert index item. induction headers as [|h headers IH]; intros index item; simpl.
  - set_solver.
  - rewrite IH, setProperty_dom. set_solver.
Qed.

Lemma assignFields_other (headers values : list string) (index : nat)
    (item : gmap string CsvValue) (h : string) :
  h ∉ headers \/ h = "__proto__" ->
  assignFields headers values index item !! h = item !! h.
Proof.
  revert index item. induction headers as [|h' headers IH]; intros index item Hnin;
    simpl; [reflexivity|].
  rewrite IH, setProperty_lookup.
  - destruct Hnin as [Hnin| ->].
    + apply not_elem_of_cons in Hnin as [Hne _].
      rewrite decide_False by (intros [H _]; congruence). reflexivity.
    + rewrite decide_False by (intros [-> H]; apply H; reflexivity). reflexivity.
  - destruct Hnin as [Hnin| ->]; [left | right; reflexivity].
    apply not_elem_of_cons in Hnin as [_ Hnin]. exact Hnin.
Qed.

Lemma assignFields_lookup (headers values : list string) (index : nat)
    (item : gmap string CsvValue) (i : nat) (h : string) :
  headers !! i = Some h ->
  h <> "__proto__" ->
  (forall j, (i < j)%nat -> headers !! j <> Some h) ->
  assignFields headers values index item !! h =
  Some (fieldValue (values !! (index + i)%nat)).
Proof.
  revert index item i. induction headers as [|h' headers IH];
    intros index item i Hi Hproto Hlast.
  - rewrite lookup_nil in Hi. discriminate Hi.
  - simpl. destruct i as [|i].
    + simpl in Hi. injection Hi as ->.
      rewrite assignFields_other.
      * rewrite setProperty_lookup, Nat.add_0_r.
        rewrite decide_True by (split; [reflexivity | exact Hproto]). reflexivity.
      * left. intros Hin. apply list_elem_of_lookup in Hin as [j Hj].
        apply (Hlast (S j)); [lia | exact Hj].
    + simpl in Hi. rewrite (IH (S index) _ i Hi Hproto).
      * replace (S index + i)%nat with (index + S i)%nat by lia. reflexivity.
      * intros j Hj. apply (Hlast (S j)). lia.
Qed.

Lemma assignFields_lookup_inv (headers values : list string) (index : nat)
    (item : gmap string CsvValue) (h : string) (v : CsvValue) :
  assignFields headers values index item !! h = Some v ->
  (h ∈ headers /\ exists i, v = fieldValue (values !! i)) \/ item !! h = Some v.
Proof.
  revert index item. induction headers as [|h' headers IH]; intros index item Hv;
    simpl in Hv; [right; exact Hv|].
  destruct (IH _ _ Hv) as [[Hin Hval]|Hitem].
  - left. split; [right; exact Hin | exact Hval].
  - rewrite setProperty_lookup in Hitem.
    destruct (decide (h' = h /\ h' <> "__proto__")) as [[-> _]|_].
    + injection Hitem as <-. left. split; [left | eexists; reflexivity].
    + right. exact Hitem.
Qed.

(** X12. The item of a data line has as keys exactly the trimmed header
    cells other than [__proto__], whose assignment creates no property; each
    key holds the value of the cell at the position of the key's last
    occurrence in the header line: a number for digits with an optional
    fraction, the trimmed text otherwise, and [undefined] when the line has
    fewer cells. Cells beyond the headers are dropped. *)
Theorem parseCSV_fields (csvContent first line : string) (rest : list string)
    (k : nat) :
  split "010"%char (trim csvContent) = first :: rest ->
  rest !! k = Some line ->
  exists item,
    parseCSV csvContent !! k = Some item /\
    dom item = list_to_set (trim <$> split ","%char first) ∖ {["__proto__"]} /\
    item !! "__proto__" = None /\
    forall i h,
      (trim <$> split ","%char first) !! i = Some h ->
      h <> "__proto__" ->
      (forall j, (i < j)%nat -> (trim <$> split ","%char first) !! j <> Some h) ->
      item !! h = Some (fieldValue ((trim <$> split ","%char line) !! i)).
Proof.
  intros Hlines Hline. unfold parseCSV. unfold split in Hlines at 1.
  destruct (split_first "010"%char (trim csvContent)) as [first' rest'].
  injection Hlines as -> ->.
  exists (parseLine (trim <$> split ","%char first) line).
  split; [rewrite list_lookup_fmap, Hline; reflexivity|].
  unfold parseLine. split; [|split].
  - rewrite assignFields_dom. set_solver.
  - rewrite assignFields_other by (right; reflexivity). apply lookup_empty.
  - intros i h Hi Hproto Hlast.
    rewrite (assignFields_lookup _ _ 0 ∅ i h Hi Hproto Hlast). reflexivity.
Qed.

Lemma parseCSV_fields_witness :
  (exists item,
     parseCSV "sku,name,quantity,unit
SKU001,Widget A,100,PIECE
SKU002,Widget B,5,BOX" !! 0%nat = Some item /\
     item !! "sku" = Some (CsvString "SKU001") /\
     item !! "name" = Some (CsvString "Widget A") /\
     item !! "quantity" = Some (CsvNumber 100) /\
     item !! "unit" = Some (CsvString "PIECE")) /\
  (exists item,
     parseCSV "__proto__,b
1,2" !! 0%nat = Some item /\
     dom item = {["b"]} /\
     item !! "b" = Some (CsvNumber 2)).
Proof.
  split.
  - destruct (parseCSV_fields "sku,name,quantity,unit
SKU001,Widget A,100,PIECE
SKU002,Widget B,5,BOX" "sku,name,quantity,unit" "SKU001,Widget A,100,PIECE"
                ["SKU001,Widget A,100,PIECE"; "SKU002,Widget B,5,BOX"] 0
                eq_refl eq_refl) as (item & Hitem & _ & _ & Hfields).
    exists item. split; [exact Hitem|].
    assert (Hlast : forall i j : nat, (i < j)%nat ->
              forall h, ["sku"; "name"; "quantity"; "unit"] !! i = Some h ->
              ["sku"; "name"; "quantity"; "unit"] !! j <> Some h).
    { intros [|[|[|[|i]]]] [|[|[|[|j]]]] Hij h [= <-]; try lia; discriminate. }
    repeat split.
    + apply (Hfields 0%nat); [reflexivity | discriminate |].
      intros j Hj. exact (Hlast 0%nat j Hj _ eq_refl).
    + apply (Hfields 1%nat); [reflexivity | discriminate |].
      intros j Hj. exact (Hlast 1%nat j Hj _ eq_refl).
    + apply (Hfields 2%nat); [reflexivity | discriminate |].
      intros j Hj. exact (Hlast 2%nat j Hj _ eq_refl).
    + apply (Hfields 3%nat); [reflexivity | discriminate |].
      intros j Hj. exact (Hlast 3%nat j Hj _ eq_refl).
  - destruct (parseCSV_fields "__proto__,b
1,2" "__proto__,b" "1,2" ["1,2"] 0 eq_refl eq_refl)
      as (item & Hitem & Hdom & _ & Hfields).
    exists item. split; [exact Hitem|]. split.
    + rewrite Hdom. apply set_eq. intros x. simpl. set_solver.
    + apply (Hfields 1%nat); [reflexivity | discriminate |].
      intros [|[|j]] Hj; try lia. discriminate.
Defined.

(** *** Trimming *)

Lemma trimEnd_idempotent (s : string) : trimEnd (trimEnd s) = trimEnd s.
Proof.
  induction s as [|c s IH]; simpl; [reflexivity|].
  destruct (trimEnd s) as [|d t] eqn:Ht.
  - destruct (isWhiteSpace c) eqn:Hc; simpl; [reflexivity|]. rewrite Hc. reflexivity.
  - simpl in *. rewrite IH. reflexivity.
Qed.

(** What starts with no white space is left alone by [trimStart], and
    [trimEnd] keeps such a start. *)
Lemma trimStart_trimEnd_trimStart (s : string) :
  trimStart (trimEnd (trimStart s)) = trimEnd (trimStart s).
Proof.
  induction s as [|c s IH]; simpl; [reflexivity|].
  destruct (isWhiteSpace c) eqn:Hc; [exact IH|].
  simpl. destruct (trimEnd s) as [|d t]; rewrite ?Hc; simpl; rewrite Hc; reflexivity.
Qed.

Lemma trim_idempotent (s : string) : trim (trim s) = trim s.
Proof.
  unfold trim. rewrite trimStart_trimEnd_trimStart. apply trimEnd_idempotent.
Qed.

(** A string value is the text of the cell it was read from. *)
Lemma fieldValue_CsvString (value : option string) (s : string) :
  fieldValue value = CsvString s -> value = Some s.
Proof.
  destruct value as [v|]; simpl; [|discriminate].
  destruct (decimalParts v) as [[int frac]|]; [discriminate|]. congruence.
Qed.

(** X13. No key and no string value of a parsed item starts or ends with
    white space: trimming any of them changes nothing. *)
Theorem parseCSV_trimmed (csvContent : string) (item : gmap string CsvValue)
    (key : string) (value : CsvValue) :
  item ∈ parseCSV csvContent ->
  item !! key = Some value ->
  trim key = key /\
  forall s, value = CsvString s -> trim s = s.
Proof.
  unfold parseCSV.
  destruct (split_first "010"%char (trim csvContent)) as [first rest].
  intros Hitem Hkey.
  apply list_elem_of_fmap in Hitem as (line & -> & _).
  unfold parseLine in Hkey.
  apply assignFields_lookup_inv in Hkey as [[Hin [i Hval]]|Hempty];
    [|rewrite lookup_empty in Hempty; discriminate Hempty].
  split.
  - apply list_elem_of_fmap in Hin as (h & -> & _). apply trim_idempotent.
  - intros s ->. symmetry in Hval. apply fieldValue_CsvString in Hval.
    apply list_elem_of_lookup_2 in Hval.
    apply list_elem_of_fmap in Hval as (v & -> & _). apply trim_idempotent.
Qed.

Lemma parseCSV_trimmed_witness :
  trim "name" = "name" /\
  forall s, CsvString "Widget A" = CsvString s -> trim s = s.
Proof.
  apply (parseCSV_trimmed " sku , name
 SKU001 ,  Widget A  
"
           (<["sku" := CsvString "SKU001"]> (<["name" := CsvString "Widget A"]> ∅))
           "name" (CsvString "Widget A")).
  - vm_compute. left.
  - reflexivity.
Defined.

(** *** Which cells are numbers *)

Lemma spanDigits_spec (s digits rest : string) :
  spanDigits s = (digits, rest) ->
  s = digits +:+ rest /\
  Forall (fun c => isDigit c = true) (String.list_ascii_of_string digits).
Proof.
  revert digits rest. induction s as [|c s IH]; intros digits rest Hspan;
    simpl in Hspan.
  - injection Hspan as <- <-. split; [reflexivity | constructor].
  - destruct (isDigit c) eqn:Hc.
    + destruct (spanDigits s) as [d r]. injection Hspan as <- <-.
      destruct (IH d r eq_refl) as [-> Hd].
      split; [reflexivity | constructor; assumption].
    + injection Hspan as <- <-. split; [reflexivity | constructor].
Qed.

Lemma append_empty (s : string) : s +:+ "" = s.
Proof.
  induction s as [|c s IH]; [reflexivity|].
  change (String c (s +:+ "") = String c s). rewrite IH. reflexivity.
Qed.

(** The shape of what the test admits. *)
Lemma decimalParts_shape (value int frac : string) :
  decimalParts value = Some (int, frac) ->
  int <> "" /\
  Forall (fun c => isDigit c = true) (String.list_ascii_of_string int) /\
  Forall (fun c => isDigit c = true) (String.list_ascii_of_string frac) /\
  (value = int /\ frac = "" \/ value = int +:+ "." +:+ frac /\ frac <> "").
Proof.
  unfold decimalParts.
  destruct (spanDigits value) as [d r] eqn:Hspan.
  destruct (spanDigits_spec _ _ _ Hspan) as [-> Hd].
  destruct d as [|c d]; [discriminate|].
  destruct r as [|p r].
  - intros [= <- <-]. split; [discriminate|]. split; [exact Hd|].
    split; [constructor|]. left. split; [|reflexivity].
    apply append_empty.
  - destruct (Ascii.eqb_spec p "."%char) as [->|]; [|discriminate].
    destruct (spanDigits r) as [f r'] eqn:Hspan'.
    destruct (spanDigits_spec _ _ _ Hspan') as [-> Hf].
    destruct f as [|cf f]; [discriminate|].
    destruct r' as [|? ?]; [|discriminate].
    intros [= <- <-]. split; [discriminate|]. split; [exact Hd|].
    split; [exact Hf|]. right. split; [|discriminate].
    rewrite append_empty. reflexivity.
Qed.

(** X16. A cell is read as a number only when its text is one or more
    digits, optionally followed by a point and one or more digits; the number
    is then the double nearest to that decimal. A cell with a sign, an
    exponent, a space inside, or no text at all stays a string. *)
Theorem fieldValue_number (v : string) (x : float) :
  fieldValue (Some v) = CsvNumber x ->
  exists int frac,
    int <> "" /\
    Forall (fun c => isDigit c = true) (String.list_ascii_of_string int) /\
    Forall (fun c => isDigit c = true) (String.list_ascii_of_string frac) /\
    (v = int /\ frac = "" \/ v = int +:+ "." +:+ frac /\ frac <> "") /\
    x = nearestDouble (digitsValue (int +:+ frac) 0)
          (Z.to_pos (10 ^ Z.of_nat (String.length frac))).
Proof.
  simpl. destruct (decimalParts v) as [[int frac]|] eqn:Hparts; [|discriminate].
  intros [= <-]. exists int, frac.
  destruct (decimalParts_shape v int frac Hparts) as (Hne & Hint & Hfrac & Hshape).
  repeat split; assumption.
Qed.

Lemma fieldValue_number_witness :
  exists int frac,
    int <> "" /\
    Forall (fun c => isDigit c = true) (String.list_ascii_of_string int) /\
    Forall (fun c => isDigit c = true) (String.list_ascii_of_string frac) /\
    ("8.33" = int /\ frac = "" \/ "8.33" = int +:+ "." +:+ frac /\ frac <> "") /\
    8.33%float = nearestDouble (digitsValue (int +:+ frac) 0)
                   (Z.to_pos (10 ^ Z.of_nat (String.length frac))).
Proof.
  apply (fieldValue_number "8.33" 8.33%float). vm_compute. reflexivity.
Defined.

(** The decimals of some cells: exact integers, a tie that goes to the even
    neighbour, a fraction that is not a binary fraction, and an overflow. *)
Example decimalNumber_examples :
  fieldValue (Some "100") = CsvNumber 100 /\
  fieldValue (Some "007.50") = CsvNumber 7.5 /\
  fieldValue (Some "0.1") = CsvNumber 0.1 /\
  fieldValue (Some "9007199254740993") = CsvNumber 9007199254740992 /\
  fieldValue (Some "1000000000000000000000000000000000000000000000000000000000000000000000000000000000000000000000000000000000000000000000000000000000000000000000000000000000000000000000000000000000000000000000000000000000000000000000000000000000000000000000000000000000000000000000000000000000000000000000000000000000000000000000000000000000") = CsvNumber infinity /\
  fieldValue (Some "-5") = CsvString "-5" /\
  fieldValue (Some "1e3") = CsvString "1e3" /\
  fieldValue (Some "") = CsvString "" /\
  fieldValue (Some "12.") = CsvString "12." /\
  fieldValue None = CsvUndefined.
Proof. vm_compute. repeat split. Qed.

(** ** The keys of the rules *)

Lemma occurrences_cons_zero (c x : ascii) (s : string) :
  occurrences c (String x s) = 0%nat -> x <> c /\ occurrences c s = 0%nat.
Proof.
  simpl. destruct (Ascii.eqb_spec x c) as [->|Hne]; [discriminate|].
  intros H. split; [exact Hne | exact H].
Qed.

(** X17. Unit names without an underscore never share a rule key: the key
    ["<from>_TO_<to>"] of two such source units is the same only for the same
    source and the same target, so a lookup cannot pick the rule of another
    pair. *)
Theorem conversionKey_injective (fromUnit toUnit fromUnit' toUnit' : string) :
  occurrences "_"%char fromUnit = 0%nat ->
  occurrences "_"%char fromUnit' = 0%nat ->
  conversionKey (Some fromUnit) (Some toUnit) =
  conversionKey (Some fromUnit') (Some toUnit') ->
  fromUnit = fromUnit' /\ toUnit = toUnit'.
Proof.
  unfold conversionKey. simpl.
  revert fromUnit'. induction fromUnit as [|x a IH]; intros [|y c] Ha Hc Hkey.
  - injection Hkey as Hkey. split; [reflexivity | exact Hkey].
  - injection Hkey as Hxy _. apply occurrences_cons_zero in Hc as [Hne _].
    congruence.
  - injection Hkey as Hxy _. apply occurrences_cons_zero in Ha as [Hne _].
    congruence.
  - injection Hkey as -> Hkey.
    apply occurrences_cons_zero in Ha as [_ Ha].
    apply occurrences_cons_zero in Hc as [_ Hc].
    destruct (IH c Ha Hc Hkey) as [-> ->]. split; reflexivity.
Qed.

Lemma conversionKey_injective_witness :
  conversionKey (Some "PIECE") (Some "BOX_TO_CARTON") =
    conversionKey (Some "PIECE") (Some ("BOX" +:+ "_TO_" +:+ "CARTON")) /\
  "PIECE" = "PIECE" /\ "BOX_TO_CARTON" = "BOX" +:+ "_TO_" +:+ "CARTON".
Proof.
  split; [reflexivity|].
  apply (conversionKey_injective "PIECE" "BOX_TO_CARTON" "PIECE"
           ("BOX" +:+ "_TO_" +:+ "CARTON")); reflexivity.
Defined.

Lemma occurrences_app (c : ascii) (s1 s2 : string) :
  occurrences c (s1 +:+ s2) = (occurrences c s1 + occurrences c s2)%nat.
Proof.
  induction s1 as [|x s1 IH]; [reflexivity|].
  change (occurrences c (String x (s1 +:+ s2)) =
          (occurrences c (String x s1) + occurrences c s2)%nat).
  simpl. rewrite IH. lia.
Qed.

(** A rule key is never the name of a member of [Object.prototype]: it
    holds the capital T of "_TO_", which none of those names has. The lookup
    of a rule therefore finds own properties only. *)
Lemma conversionKey_not_inherited (fromUnit toUnit : option string) :
  conversionKey fromUnit toUnit ∉ objectPrototypeMembers.
Proof.
  assert (Hkey : occurrences "T"%char (conversionKey fromUnit toUnit) <> 0%nat).
  { unfold conversionKey. rewrite !occurrences_app. simpl. lia. }
  unfold objectPrototypeMembers. rewrite !elem_of_cons, elem_of_nil.
  intros Hin.
  repeat (destruct Hin as [Hin|Hin];
          [rewrite Hin in Hkey; apply Hkey; reflexivity|]).
  exact Hin.
Qed.
